(** * go-op/op: schema synthesis, server options and route registry

    A shallow embedding of the parts of the repository that its
    specification talks about, followed by the properties proved of them.

    - [Openapi3]: [ToSchema] (package [openapi3]), the reflective schema
      synthesizer.
    - [Fuego]: the [Server] record, its functional options and [NewServer]
      (package [fuego], server.go), the tag methods of [Server] and [Route],
      and the route registry ([Register], [Use], [Hide], the export of the
      document), which is not among the sources and is modelled from the
      specification.
    - [FuegoOptions]: the earlier [WithOpenAPIConfig] of options.go. *)

From stdpp Require Import gmap strings list pretty.

Set Warnings "-register-all".
#[local] Open Scope string_scope.
#[local] Open Scope list_scope.

(** ** Panics

    Go code either returns or panics; a panic carries its message. *)

Inductive result (A : Type) : Type :=
| Ok (a : A)
| Panic (msg : string).
Arguments Ok {A} a.
Arguments Panic {A} msg.

#[global] Instance result_ret : MRet result := λ A a, Ok a.

#[global] Instance result_bind : MBind result := λ A B k m,
  match m with
  | Ok a => k a
  | Panic msg => Panic msg
  end.

#[global] Instance result_fmap : FMap result := λ A B f m,
  match m with
  | Ok a => Ok (f a)
  | Panic msg => Panic msg
  end.

(** [strings.Contains(s, substr)]. *)
Definition strings_Contains (s substr : string) : bool :=
  match String.index 0 substr s with
  | Some _ => true
  | None => false
  end.

Module Openapi3.

(** *** reflect.Kind and the data shapes

    [reflect.Kind] with the text [Kind.String()] prints. *)

Inductive Kind : Set :=
| Invalid | Bool | Int | Int8 | Int16 | Int32 | Int64
| Uint | Uint8 | Uint16 | Uint32 | Uint64 | Uintptr
| Float32 | Float64 | Complex64 | Complex128
| Array | Chan | Func | Interface | Map | Pointer | Slice
| String_ | Struct | UnsafePointer.

Definition Kind_String (k : Kind) : string :=
  match k with
  | Invalid => "invalid" | Bool => "bool"
  | Int => "int" | Int8 => "int8" | Int16 => "int16"
  | Int32 => "int32" | Int64 => "int64"
  | Uint => "uint" | Uint8 => "uint8" | Uint16 => "uint16"
  | Uint32 => "uint32" | Uint64 => "uint64" | Uintptr => "uintptr"
  | Float32 => "float32" | Float64 => "float64"
  | Complex64 => "complex64" | Complex128 => "complex128"
  | Array => "array" | Chan => "chan" | Func => "func"
  | Interface => "interface" | Map => "map" | Pointer => "ptr"
  | Slice => "slice" | String_ => "string" | Struct => "struct"
  | UnsafePointer => "unsafe.Pointer"
  end.

#[global] Instance Kind_eq_dec : EqDecision Kind.
Proof. solve_decision. Defined.

(** A struct tag, as the key/value pairs [reflect.StructTag] parses. *)
Definition StructTag := list (string * string).

(** [tag.Get(key)]: the value of the first pair with that key, or the empty
    string. *)
Fixpoint Tag_Get (tag : StructTag) (key : string) : string :=
  match tag with
  | [] => ""
  | (k, v) :: rest => if String.eqb k key then v else Tag_Get rest key
  end.

(** [reflect.StructField] without its type: the declared name, the tag, and
    whether the field is exported ([PkgPath] empty). *)
Record StructField : Type := mkField {
  Name : string;
  Tag : StructTag;
  Exported : bool }.

(** A data shape, as [reflect.Type] shows it to [ToSchema].

    - [BasicT k name]: a type of a kind [k] other than struct, slice and
      pointer, whose structure [ToSchema] never enters (booleans, numbers,
      strings, and also maps, arrays, channels, functions and interfaces);
      [name] is [Type.Name()], empty for an unnamed type;
    - [TimeT]: [time.Time], a struct kind the code singles out;
    - [StructT name fields]: a struct with its fields in declaration order;
    - [SliceT name elem] and [PtrT elem]. *)
Inductive GoType : Type :=
| BasicT (k : Kind) (name : string)
| TimeT
| StructT (name : string) (fields : list (StructField * GoType))
| SliceT (name : string) (elem : GoType)
| PtrT (elem : GoType).

(** [Type.Kind()] *)
Definition KindOf (t : GoType) : Kind :=
  match t with
  | BasicT k _ => k
  | TimeT | StructT _ _ => Struct
  | SliceT _ _ => Slice
  | PtrT _ => Pointer
  end.

(** [Type.Name()] *)
Definition TypeName (t : GoType) : string :=
  match t with
  | BasicT _ name | StructT name _ | SliceT name _ => name
  | TimeT => "Time"
  | PtrT _ => ""
  end.

(** *** Schema

    Modelled from the spec: the declaration of [Schema] is not among the
    sources. The fields are the ones [ToSchema] assigns: a type tag, the
    properties (a Go [map[string]Schema], built with [make]), the items of an
    array (a [*Schema], [None] for nil), the required names, format and
    example. *)
Inductive Schema : Type := mkSchema {
  Type_ : string;
  Properties : gmap string Schema;
  Items : option Schema;
  Required : list string;
  Format : string;
  Example_ : string }.

(** *** ToSchema

    The argument of [ToSchema] is an [any]. The synthesizer reads the shape
    of its argument; of the value it reads whether the interface or the
    pointer is nil and, of a [time.Time], the instant it prints as example.
    As in the specification the input is a zero-value instance of a shape:
    the arguments modelled are the nil interface, the zero value of a
    shape, and [reflect.New(t).Interface()], a non-nil pointer to the zero
    value of [t]. *)
Inductive any : Type :=
| nil_
| ZeroValue (t : GoType)
| New (t : GoType).

(** [time.Time{}.Format(time.RFC3339)] *)
Definition zeroTimeRFC3339 : string := "0001-01-01T00:00:00Z".

(** The external name of a field: its [json] tag, or its declared name. *)
Definition fieldName (f : StructField) : string :=
  let fieldName := Tag_Get (Tag f) "json" in
  if String.eqb fieldName "" then Name f else fieldName.

(** Lines 58-79: the property of a field that is not of struct kind. *)
Definition basicField (f : StructField) (ft : GoType) : Schema :=
  let fieldTypeType := TypeName ft in
  let format := Tag_Get (Tag f) "format" in
  let '(fieldTypeType, format) :=
    if strings_Contains fieldTypeType "int" then
      ("integer", if negb (String.eqb format "") then TypeName ft else format)
    else if String.eqb fieldTypeType "bool" then ("boolean", format)
    else (fieldTypeType, format) in
  {| Type_ := fieldTypeType; Properties := ∅; Items := None; Required := [];
     Format := format; Example_ := Tag_Get (Tag f) "example" |}.

Definition setProperty (s : Schema) (name : string) (p : Schema) : Schema :=
  {| Type_ := Type_ s; Properties := <[name := p]> (Properties s);
     Items := Items s; Required := Required s; Format := Format s;
     Example_ := Example_ s |}.

Definition appendRequired (s : Schema) (name : string) : Schema :=
  {| Type_ := Type_ s; Properties := Properties s; Items := Items s;
     Required := Required s ++ [name]; Format := Format s;
     Example_ := Example_ s |}.

Definition setType (s : Schema) (ty : string) : Schema :=
  {| Type_ := ty; Properties := Properties s; Items := Items s;
     Required := Required s; Format := Format s; Example_ := Example_ s |}.

(** Lines 28-31: the element type of a slice, one pointer removed. *)
Definition itemTypeOf (elem : GoType) : GoType :=
  match elem with
  | PtrT e => e
  | _ => elem
  end.

(** Lines 15-18. *)
Definition emptyObject : Schema :=
  {| Type_ := "object"; Properties := ∅; Items := None; Required := [];
     Format := ""; Example_ := "" |}.

(** Lines 15-93 for [value] the zero value of shape [t], that is after the
    nil test and the pointer step of lines 11-24. Both recursive calls of the
    source pass a non-nil interface ([one.Interface()] is a pointer that
    line 23 dereferences again, [field.Interface()] is a struct value), so
    they re-enter here: at the item shape and at the field's shape. *)
Fixpoint toSchemaValue (t : GoType) : result Schema :=
  match t with
  | SliceT _ elem =>
      (* lines 26-34; a slice is neither a time nor a struct *)
      let itemType := itemTypeOf elem in
      items ← toSchemaValue itemType;
      Ok {| Type_ := "array"; Properties := ∅; Items := Some items;
            Required := []; Format := ""; Example_ := "" |}
  | TimeT =>
      (* lines 36-41 *)
      Ok {| Type_ := "string"; Properties := ∅; Items := None;
            Required := []; Format := "date-time";
            Example_ := zeroTimeRFC3339 |}
  | StructT _ fields =>
      (* lines 43-82: the loop over the fields, [s] threaded through *)
      (fix loop (fields : list (StructField * GoType)) (s : Schema)
         : result Schema :=
         match fields with
         | [] => Ok s
         | (fieldType, ft) :: rest =>
             if decide (KindOf ft = Struct) then
               if Exported fieldType then
                 sub ← toSchemaValue ft;
                 loop rest (setProperty s (fieldName fieldType) sub)
               else
                 Panic "reflect.Value.Interface: cannot return value obtained from unexported field or method"
             else
               let s :=
                 if strings_Contains (Tag_Get (Tag fieldType) "validate")
                      "required"
                 then appendRequired s (fieldName fieldType) else s in
               loop rest
                 (setProperty s (fieldName fieldType)
                    (basicField fieldType ft))
         end) fields emptyObject
  | BasicT _ _ | PtrT _ =>
      (* lines 84-91 *)
      let ty := Kind_String (KindOf t) in
      Ok (setType emptyObject
            (if strings_Contains ty "int" then "integer"
             else if String.eqb ty "bool" then "boolean"
             else ty))
  end.

(** [ToSchema], lines 10-24 and then [toSchemaValue]. The zero value of an
    interface type is the nil interface. The zero value of a pointer shape
    is a nil pointer: [value.Elem()] is then the invalid [reflect.Value], of
    no kind, and [value.Interface()] at line 36 panics. *)
Definition ToSchema (v : any) : result (option Schema) :=
  match v with
  | nil_ | ZeroValue (BasicT Interface _) => Ok None
  | ZeroValue (PtrT _) =>
      Panic "reflect: call of reflect.Value.Interface on zero Value"
  | ZeroValue t | New t =>
      Some <$> toSchemaValue t
  end.

(** *** Definitions for the properties of ToSchema *)

(** Induction on shapes: over the fields of a struct, and for a slice over
    both the element shape and the item shape. *)
Section GoType_induction.
Variable P : GoType → Prop.
Hypothesis Hbasic : ∀ k name, P (BasicT k name).
Hypothesis Htime : P TimeT.
Hypothesis Hstruct :
  ∀ name fields, Forall (λ f, P f.2) fields → P (StructT name fields).
Hypothesis Hslice :
  ∀ name elem, P elem → P (itemTypeOf elem) → P (SliceT name elem).
Hypothesis Hptr : ∀ elem, P elem → P (PtrT elem).

Fixpoint GoType_induction (t : GoType) : P t :=
  match t with
  | BasicT k name => Hbasic k name
  | TimeT => Htime
  | StructT name fields =>
      Hstruct name fields
        ((fix go (fields : list (StructField * GoType))
            : Forall (λ f, P f.2) fields :=
            match fields with
            | [] => Forall_nil_2 _
            | (f, ft) :: rest =>
                Forall_cons_2 (λ f, P f.2) (f, ft) rest
                  (GoType_induction ft) (go rest)
            end) fields)
  | SliceT name elem =>
      Hslice name elem (GoType_induction elem)
        (match elem as e0 return P e0 → P (itemTypeOf e0) with
         | PtrT e => λ _, GoType_induction e
         | _ => λ H, H
         end (GoType_induction elem))
  | PtrT elem => Hptr elem (GoType_induction elem)
  end.
End GoType_induction.

(** One turn of the loop of lines 45-81, and the loop, on their own. *)
Definition structField (s : Schema) (fieldType : StructField) (ft : GoType)
  : result Schema :=
  if decide (KindOf ft = Struct) then
    if Exported fieldType then
      sub ← toSchemaValue ft;
      Ok (setProperty s (fieldName fieldType) sub)
    else
      Panic "reflect.Value.Interface: cannot return value obtained from unexported field or method"
  else
    let s :=
      if strings_Contains (Tag_Get (Tag fieldType) "validate") "required"
      then appendRequired s (fieldName fieldType) else s in
    Ok (setProperty s (fieldName fieldType) (basicField fieldType ft)).

Fixpoint structFields (fields : list (StructField * GoType)) (s : Schema)
  : result Schema :=
  match fields with
  | [] => Ok s
  | (fieldType, ft) :: rest =>
      s ← structField s fieldType ft; structFields rest s
  end.

(** The shapes on which [ToSchema] returns: no field of struct kind,
    however deep, is unexported. *)
Fixpoint synthesizable (t : GoType) : bool :=
  match t with
  | SliceT _ elem => synthesizable (itemTypeOf elem)
  | StructT _ fields =>
      (fix go (fields : list (StructField * GoType)) : bool :=
         match fields with
         | [] => true
         | (f, ft) :: rest =>
             (if decide (KindOf ft = Struct)
              then Exported f && synthesizable ft else true)
             && go rest
         end) fields
  | _ => true
  end.

Definition fieldOk (f : StructField * GoType) : bool :=
  if decide (KindOf f.2 = Struct) then Exported f.1 && synthesizable f.2
  else true.

(** What the loop stores for one field. *)
Definition fieldSchema (f : StructField * GoType) : result Schema :=
  if decide (KindOf f.2 = Struct) then
    if Exported f.1 then toSchemaValue f.2
    else
      Panic "reflect.Value.Interface: cannot return value obtained from unexported field or method"
  else Ok (basicField f.1 f.2).

Definition stored (f : StructField * GoType) (e : string * Schema) : Prop :=
  e.1 = fieldName f.1 ∧ fieldSchema f = Ok e.2.

(** A field is marked required: its [validate] tag contains "required". *)
Definition markedRequired (f : StructField) : bool :=
  strings_Contains (Tag_Get (Tag f) "validate") "required".

(** The names the loop appends to [Required]. *)
Fixpoint requiredNames (fields : list (StructField * GoType))
  : list string :=
  match fields with
  | [] => []
  | (f, ft) :: rest =>
      if decide (KindOf ft = Struct) then requiredNames rest
      else if markedRequired f then fieldName f :: requiredNames rest
      else requiredNames rest
  end.

(** Assignments [Properties[name] = schema], one after the other. *)
Definition insertAll (m : gmap string Schema)
    (entries : list (string * Schema)) : gmap string Schema :=
  foldl (λ m e, <[e.1 := e.2]> m) m entries.

Definition fieldsOf (t : GoType) : list (StructField * GoType) :=
  match t with
  | StructT _ fields => fields
  | _ => []
  end.

(** Shapes to run [ToSchema] on.

<<
    type Address struct {
        City string `validate:"required"`
    }
    type User struct {
        Name      string    `json:"name" validate:"required"`
        Address   Address   `validate:"required"`
        CreatedAt time.Time `validate:"required"`
    }
>> *)
Definition stringT : GoType := BasicT String_ "string".

Definition Address : GoType :=
  StructT "Address"
    [ (mkField "City" [("validate", "required")] true, stringT) ].

Definition User : GoType :=
  StructT "User"
    [ (mkField "Name" [("json", "name"); ("validate", "required")] true,
       stringT);
      (mkField "Address" [("validate", "required")] true, Address);
      (mkField "CreatedAt" [("validate", "required")] true, TimeT) ].

(** Two structs with the same two fields, declared in either order. *)
Definition AB : GoType :=
  StructT "T"
    [ (mkField "A" [] true, stringT); (mkField "B" [] true, stringT) ].

Definition BA : GoType :=
  StructT "T"
    [ (mkField "B" [] true, stringT); (mkField "A" [] true, stringT) ].

End Openapi3.

Module Fuego.

(** *** Logging and the effects of an option

    A functional option, a function on a [*Server], returns or panics, and
    may write records to the default [slog] logger. *)

Inductive Level : Set := LevelDebug | LevelInfo | LevelWarn | LevelError.

Record LogRecord : Type := mkLog {
  level : Level;
  message : string;
  attrs : list (string * string) }.

Record Eff (A : Type) : Type := mkEff {
  outcome : result A;
  logs : list LogRecord }.
Arguments mkEff {A} outcome logs.
Arguments outcome {A} e.
Arguments logs {A} e.

#[global] Instance Eff_ret : MRet Eff := λ A a, mkEff (Ok a) [].

#[global] Instance Eff_bind : MBind Eff := λ A B k m,
  match outcome m with
  | Ok a => mkEff (outcome (k a)) (logs m ++ logs (k a))
  | Panic msg => mkEff (Panic msg) (logs m)
  end.

Definition slog_Error (msg : string) (args : list (string * string))
  : Eff unit :=
  mkEff (Ok tt) [mkLog LevelError msg args].

Definition panic {A} (msg : string) : Eff A := mkEff (Panic msg) [].

Definition lift {A} (m : result A) : Eff A := mkEff m [].

(** *** net/http, as far as the registry and its tests use it

    [ServeHTTP(w, r)] receives two pointers and writes through both (the
    tests read the request's header after the call), so a handler is a
    function on the pair. *)

Abbreviation Header := (gmap string (list string)).

Definition Header_Set (h : Header) (key value : string) : Header :=
  <[key := [value]]> h.

Definition Header_Add (h : Header) (key value : string) : Header :=
  <[key := default [] (h !! key) ++ [value]]> h.

Definition Header_Values (h : Header) (key : string) : list string :=
  default [] (h !! key).

Record Request : Type := mkRequest {
  ReqMethod : string;
  ReqPath : string;
  ReqHeader : Header }.

(** [httptest.ResponseRecorder]; [Code] is 200 until a status is written. *)
Record ResponseRecorder : Type := mkRecorder {
  Code : Z;
  RespHeader : Header;
  Body : string;
  wroteHeader : bool }.

Definition NewRecorder : ResponseRecorder :=
  {| Code := 200; RespHeader := ∅; Body := ""; wroteHeader := false |}.

Record Exchange : Type := mkExchange {
  w : ResponseRecorder;
  r : Request }.

Definition Handler := Exchange → Exchange.
Definition Middleware := Handler → Handler.

(** *** The server (server.go, lines 22-97)

    Function-typed fields hold nil or a function; the functions the sources
    name are constructors, any other one is [Custom]. *)

Inductive Sender : Set :=
| Send | SendJSON | SendXML | CustomSender (id : nat).
Inductive ErrorSender : Set :=
| SendError | SendJSONError | SendXMLError | CustomErrorSender (id : nat).
Inductive ErrorHandlerFunc : Set :=
| ErrorHandler_ | CustomErrorHandler (id : nat).
Inductive UIHandlerFunc : Set :=
| DefaultOpenAPIHandler | CustomUIHandler (id : nat).

Record OpenAPIConfig : Type := mkOpenAPIConfig {
  DisableSwagger : bool;
  DisableSwaggerUI : bool;
  DisableLocalSave : bool;
  SwaggerUrl : string;
  UIHandler : option UIHandlerFunc;
  JsonUrl : string;
  JsonFilePath : string;
  PrettyFormatJson : bool }.

(** Lines 33-38. *)
Definition defaultOpenAPIConfig : OpenAPIConfig :=
  {| DisableSwagger := false; DisableSwaggerUI := false;
     DisableLocalSave := false;
     SwaggerUrl := "/swagger";
     UIHandler := Some DefaultOpenAPIHandler;
     JsonUrl := "/swagger/openapi.json";
     JsonFilePath := "doc/openapi.json";
     PrettyFormatJson := false |}.

(** The type of a documented error response ([HTTPError{}] or another
    value). *)
Inductive ErrorType : Set := HTTPError | OtherErrorType (name : string).

Record openAPIError : Type := mkOpenAPIError {
  ErrCode : Z;
  ErrDescription : string;
  ErrorType_ : ErrorType }.

(** Modelled from the spec: the declarations of [openapi3.Parameter] and
    [openapi3.Operation] are not among the sources. The fields are the ones
    the methods of [Route] assign. *)
Record OpParameter : Type := mkParameter {
  ParamName : string;
  ParamDescription : string;
  In : string;
  ParamRequired : bool }.

Record Operation : Type := mkOperation {
  Summary : string;
  Description : string;
  OperationID : string;
  Tags : list string;
  Parameters : list OpParameter;
  Deprecated : bool }.

Definition NewOperation : Operation :=
  {| Summary := ""; Description := ""; OperationID := ""; Tags := [];
     Parameters := []; Deprecated := false |}.

(** The specification document: its servers, and its operations keyed by
    path and method. *)
Record SpecServer : Type := mkSpecServer {
  URL : string;
  ServerDescription : string }.

Record OpenAPISpec : Type := mkSpec {
  Servers : list SpecServer;
  Paths : gmap (string * string) Operation }.

(** Modelled from the spec: [NewOpenApiSpec] is not among the sources; a
    new document has no server and no path. *)
Definition NewOpenApiSpec : OpenAPISpec := {| Servers := []; Paths := ∅ |}.

(** A [net.Listener]: its address, and what [isTLSListener] (lines 379-385)
    finds of its type. *)
Record Listener : Type := mkListener {
  ListenerAddr : string;
  ListenerIsTLS : bool }.

(** The fields of [Server] that the functions below read or write.
    [Addr] is the field of the embedded [http.Server]; [Mux] maps a
    registered pattern, a method and a path, to its handler. *)
Record Server : Type := mkServer {
  Addr : string;
  Mux : gmap (string * string) Handler;
  tags : list string;
  middlewares : list Middleware;
  basePath : string;
  globalOpenAPIResponses : list openAPIError;
  OpenApiSpec : OpenAPISpec;
  listener : option Listener;
  autoAuthEnabled : bool;
  DisallowUnknownFields : bool;
  maxBodySize : Z;
  Serialize : option Sender;
  SerializeError : option ErrorSender;
  ErrorHandler : option ErrorHandlerFunc;
  OpenAPIConfig_ : OpenAPIConfig;
  isTLS : bool }.

(** Assignments to one field. *)
Definition set_Addr (v : string) (s : Server) : Server :=
  let 'mkServer _ b c d e f g h i j k l m n o p := s in
  mkServer v b c d e f g h i j k l m n o p.
Definition set_Mux (v : gmap (string * string) Handler) (s : Server)
  : Server :=
  let 'mkServer a _ c d e f g h i j k l m n o p := s in
  mkServer a v c d e f g h i j k l m n o p.
Definition set_middlewares (v : list Middleware) (s : Server) : Server :=
  let 'mkServer a b c _ e f g h i j k l m n o p := s in
  mkServer a b c v e f g h i j k l m n o p.
Definition set_basePath (v : string) (s : Server) : Server :=
  let 'mkServer a b c d _ f g h i j k l m n o p := s in
  mkServer a b c d v f g h i j k l m n o p.
Definition set_globalOpenAPIResponses (v : list openAPIError) (s : Server)
  : Server :=
  let 'mkServer a b c d e _ g h i j k l m n o p := s in
  mkServer a b c d e v g h i j k l m n o p.
Definition set_OpenApiSpec (v : OpenAPISpec) (s : Server) : Server :=
  let 'mkServer a b c d e f _ h i j k l m n o p := s in
  mkServer a b c d e f v h i j k l m n o p.
Definition set_listener (v : option Listener) (s : Server) : Server :=
  let 'mkServer a b c d e f g _ i j k l m n o p := s in
  mkServer a b c d e f g v i j k l m n o p.
Definition set_autoAuthEnabled (v : bool) (s : Server) : Server :=
  let 'mkServer a b c d e f g h _ j k l m n o p := s in
  mkServer a b c d e f g h v j k l m n o p.
Definition set_DisallowUnknownFields (v : bool) (s : Server) : Server :=
  let 'mkServer a b c d e f g h i _ k l m n o p := s in
  mkServer a b c d e f g h i v k l m n o p.
Definition set_maxBodySize (v : Z) (s : Server) : Server :=
  let 'mkServer a b c d e f g h i j _ l m n o p := s in
  mkServer a b c d e f g h i j v l m n o p.
Definition set_Serialize (v : option Sender) (s : Server) : Server :=
  let 'mkServer a b c d e f g h i j k _ m n o p := s in
  mkServer a b c d e f g h i j k v m n o p.
Definition set_SerializeError (v : option ErrorSender) (s : Server)
  : Server :=
  let 'mkServer a b c d e f g h i j k l _ n o p := s in
  mkServer a b c d e f g h i j k l v n o p.
Definition set_ErrorHandler (v : option ErrorHandlerFunc) (s : Server)
  : Server :=
  let 'mkServer a b c d e f g h i j k l m _ o p := s in
  mkServer a b c d e f g h i j k l m v o p.
Definition set_OpenAPIConfig (v : OpenAPIConfig) (s : Server) : Server :=
  let 'mkServer a b c d e f g h i j k l m n _ p := s in
  mkServer a b c d e f g h i j k l m n v p.
Definition set_isTLS (v : bool) (s : Server) : Server :=
  let 'mkServer a b c d e f g h i j k l m n o _ := s in
  mkServer a b c d e f g h i j k l m n o v.

(** A functional option, a function on a [*Server]. *)
Definition ServerOption := Server → Eff Server.

(** The path-syntax checks [validateJsonSpecUrl], [validateSwaggerUrl] and
    [validateJsonSpecLocalPath] are called by the sources but not among
    them: they are parameters of the embedding. *)
Class PathSyntax : Type := {
  validateJsonSpecUrl : string → bool;
  validateSwaggerUrl : string → bool;
  validateJsonSpecLocalPath : string → bool }.

(** *** Options (server.go) *)

(** Lines 212-217. [errorType] is the variadic argument. *)
Definition WithGlobalResponseTypes (code : Z) (description : string)
    (errorType : list ErrorType) : ServerOption :=
  let errorType := errorType ++ [HTTPError] in
  λ c, mret (set_globalOpenAPIResponses
               (globalOpenAPIResponses c ++
                  [mkOpenAPIError code description
                     (default HTTPError (head errorType))]) c).

(** Lines 271-273. *)
Definition WithBasePath (basePath : string) : ServerOption :=
  λ c, mret (set_basePath basePath c).

(** Lines 275-277. *)
Definition WithMaxBodySize (maxBodySize : Z) : ServerOption :=
  λ c, mret (set_maxBodySize maxBodySize c).

(** Lines 279-284. *)
Definition WithAutoAuth : ServerOption :=
  λ c, mret (set_autoAuthEnabled true c).

(** Lines 290-292. *)
Definition WithDisallowUnknownFields (b : bool) : ServerOption :=
  λ c, mret (set_DisallowUnknownFields b c).

(** Lines 305-312. *)
Definition WithAddr (addr : string) : ServerOption :=
  λ c, match listener c with
       | Some _ =>
           panic "cannot set addr when a listener is already configured"
       | None => mret (set_Addr addr c)
       end.

(** Lines 317-322. *)
Definition WithXML : ServerOption :=
  λ c, mret (set_SerializeError (Some SendXMLError)
               (set_Serialize (Some SendXML) c)).

(** Lines 341-343; the argument may be nil. *)
Definition WithSerializer (serializer : option Sender) : ServerOption :=
  λ c, mret (set_Serialize serializer c).

(** Lines 347-349. *)
Definition WithErrorSerializer (serializer : option ErrorSender)
  : ServerOption :=
  λ c, mret (set_SerializeError serializer c).

(** Lines 351-353. *)
Definition WithErrorHandler (errorHandler : option ErrorHandlerFunc)
  : ServerOption :=
  λ c, mret (set_ErrorHandler errorHandler c).

(** Lines 368-377. *)
Definition WithListener (l : Listener) : ServerOption :=
  λ s, match listener s with
       | Some _ =>
           panic "a listener is already configured; cannot overwrite it"
       | None =>
           let s := set_isTLS (ListenerIsTLS l) s in
           s ← WithAddr (ListenerAddr l) s;
           mret (set_listener (Some l) s)
       end.

(** Lines 387-420. *)
Definition WithOpenAPIConfig `{PathSyntax} (openapiConfig : OpenAPIConfig)
  : ServerOption :=
  λ s,
    let cur := OpenAPIConfig_ s in
    let cfg :=
      {| JsonUrl :=
           if negb (String.eqb (JsonUrl openapiConfig) "")
           then JsonUrl openapiConfig else JsonUrl cur;
         SwaggerUrl :=
           if negb (String.eqb (SwaggerUrl openapiConfig) "")
           then SwaggerUrl openapiConfig else SwaggerUrl cur;
         JsonFilePath :=
           if negb (String.eqb (JsonFilePath openapiConfig) "")
           then JsonFilePath openapiConfig else JsonFilePath cur;
         UIHandler :=
           match UIHandler openapiConfig with
           | Some h => Some h
           | None => UIHandler cur
           end;
         DisableSwagger := DisableSwagger openapiConfig;
         DisableSwaggerUI := DisableSwaggerUI openapiConfig;
         DisableLocalSave := DisableLocalSave openapiConfig;
         PrettyFormatJson := PrettyFormatJson openapiConfig |} in
    let s := set_OpenAPIConfig cfg s in
    if negb (validateJsonSpecUrl (JsonUrl (OpenAPIConfig_ s))) then
      _ ← slog_Error
            "Error serving openapi json spec. Value of 's.OpenAPIConfig.JsonSpecUrl' option is not valid"
            [("url", JsonUrl (OpenAPIConfig_ s))];
      mret s
    else if negb (validateSwaggerUrl (SwaggerUrl (OpenAPIConfig_ s))) then
      _ ← slog_Error
            "Error serving swagger ui. Value of 's.OpenAPIConfig.SwaggerUrl' option is not valid"
            [("url", SwaggerUrl (OpenAPIConfig_ s))];
      mret s
    else mret s.

(** *** Tags of a server (server.go, lines 457-483) *)

(** [slices.Delete(s, i, j)] for [i <= j <= len(s)]. *)
Definition slices_Delete {A} (s : list A) (i j : nat) : list A :=
  take i s ++ drop j s.

(** The inner loop of [RemoveTags]: [rest] is what is left to range over,
    [i] the index reached; the first element equal to [tag] is deleted from
    [tags] and the loop is left. *)
Fixpoint removeTag (tags : list string) (tag : string) (i : nat)
    (rest : list string) : list string :=
  match rest with
  | [] => tags
  | t :: rest =>
      if String.eqb t tag then slices_Delete tags i (i + 1)
      else removeTag tags tag (S i) rest
  end.

(** The outer loop, shared by [Server.RemoveTags] and [Route.RemoveTags]. *)
Definition removeTags (current tags : list string) : list string :=
  fold_left (λ current tag, removeTag current tag 0 current) tags current.




(** *** Route and its methods

    [Route] holds a pointer to its operation; the methods write through it
    and return the route. *)
Record Route : Type := mkRoute { operation : Operation }.

Record OpenAPIParam : Type := mkOpenAPIParam {
  Required_ : bool;
  ParamExample : string;
  ParamType : string }.

Definition Route_Param (r : Route) (paramType name description : string)
    (params : list OpenAPIParam) : Route :=
  let openapiParam :=
    fold_left
      (λ (p : OpParameter) (param : OpenAPIParam),
         if Required_ param
         then mkParameter (ParamName p) (ParamDescription p) (In p)
                (Required_ param)
         else p)
      params (mkParameter name description paramType false) in
  let o := operation r in
  mkRoute {| Summary := Summary o; Description := Description o;
             OperationID := OperationID o; Tags := Tags o;
             Parameters := Parameters o ++ [openapiParam];
             Deprecated := Deprecated o |}.

Definition Route_Header (r : Route) (name description : string)
    (params : list OpenAPIParam) : Route :=
  Route_Param r "header" name description params.

Definition Route_Cookie (r : Route) (name description : string)
    (params : list OpenAPIParam) : Route :=
  Route_Param r "cookie" name description params.

Definition Route_QueryParam (r : Route) (name description : string)
    (params : list OpenAPIParam) : Route :=
  Route_Param r "query" name description params.

Definition set_opTags (v : list string) (o : Operation) : Operation :=
  {| Summary := Summary o; Description := Description o;
     OperationID := OperationID o; Tags := v; Parameters := Parameters o;
     Deprecated := Deprecated o |}.

Definition Route_Description (r : Route) (description : string) : Route :=
  let o := operation r in
  mkRoute {| Summary := Summary o; Description := description;
             OperationID := OperationID o; Tags := Tags o;
             Parameters := Parameters o; Deprecated := Deprecated o |}.

Definition Route_Summary (r : Route) (summary : string) : Route :=
  let o := operation r in
  mkRoute {| Summary := summary; Description := Description o;
             OperationID := OperationID o; Tags := Tags o;
             Parameters := Parameters o; Deprecated := Deprecated o |}.

Definition Route_OperationID (r : Route) (operationID : string) : Route :=
  let o := operation r in
  mkRoute {| Summary := Summary o; Description := Description o;
             OperationID := operationID; Tags := Tags o;
             Parameters := Parameters o; Deprecated := Deprecated o |}.

Definition Route_Deprecated (r : Route) : Route :=
  let o := operation r in
  mkRoute {| Summary := Summary o; Description := Description o;
             OperationID := OperationID o; Tags := Tags o;
             Parameters := Parameters o; Deprecated := true |}.

Definition Route_Tags (r : Route) (tags : list string) : Route :=
  mkRoute (set_opTags tags (operation r)).



(** *** The route registry

    Modelled from the spec: route registration ([Register] and its
    shorthands [Get], [Post], [PostStd]), [Use], the per-route options of
    package [option], [OutputOpenAPISpec] and the adapter around a
    controller are not among the sources, which hold only their callers and
    the tests of option_test.go. The definitions below follow sections 4.3
    to 4.6 of the specification; [ServeHTTP] is the lookup of
    [http.ServeMux] for patterns without wildcards. *)

(** Modelled from the spec: what a controller returns for a request, a
    serialized answer, or an error with the status the error handler gives
    it (section 4.3). *)
Inductive ControllerResult : Type :=
| Returns (body : string)
| Fails (status : Z) (message : string).

Definition Controller := Request → ControllerResult.

(** Modelled from the spec: the single write of section 4.3. Once a response
    has begun being written, later writes are discarded. *)
Definition write (code : Z) (body : string) (rec : ResponseRecorder)
  : ResponseRecorder :=
  if wroteHeader rec then rec
  else {| Code := code; RespHeader := RespHeader rec; Body := body;
          wroteHeader := true |}.

(** Modelled from the spec: the adapter of section 4.4 around a controller,
    reduced to the response pipeline: status 200 and the body on success,
    the status of the error otherwise. *)
Definition adapter (c : Controller) : Handler :=
  λ x, match c (r x) with
       | Returns body => mkExchange (write 200 body (w x)) (r x)
       | Fails status message =>
           mkExchange (write status message (w x)) (r x)
       end.

(** Modelled from the spec: the route under construction, on which the
    per-route options act (section 4.4). *)
Record BaseRoute : Type := mkBaseRoute {
  Method : string;
  Path : string;
  Operation_ : Operation;
  Middlewares : list Middleware;
  Hidden : bool }.

(** Modelled from the spec: the per-route options the tests use, as an
    ordered list of mutators (section 9). *)
Inductive RouteOption : Type :=
| option_Middleware (middleware : list Middleware)
| option_Hide
| option_Summary (summary : string)
| option_OperationID (operationID : string)
| option_Tags (tags : list string)
| option_Deprecated.

(** Modelled from the spec: each option mutates the route or its operation
    (section 4.4). *)
Definition applyOption (o : RouteOption) (rt : BaseRoute) : BaseRoute :=
  let 'mkBaseRoute method path op mws hidden := rt in
  match o with
  | option_Middleware middleware =>
      mkBaseRoute method path op (mws ++ middleware) hidden
  | option_Hide => mkBaseRoute method path op mws true
  | option_Summary summary =>
      mkBaseRoute method path
        (operation (Route_Summary (mkRoute op) summary)) mws hidden
  | option_OperationID operationID =>
      mkBaseRoute method path
        (operation (Route_OperationID (mkRoute op) operationID)) mws hidden
  | option_Tags tags =>
      mkBaseRoute method path
        (operation (Route_Tags (mkRoute op) tags)) mws hidden
  | option_Deprecated =>
      mkBaseRoute method path
        (operation (Route_Deprecated (mkRoute op))) mws hidden
  end.

(** Modelled from the spec: [Use] appends middlewares to the server's, in
    registration order (section 4.5). *)
Definition Use (s : Server) (middlewares_ : list Middleware) : Server :=
  set_middlewares (middlewares s ++ middlewares_) s.

(** Modelled from the spec: a list of middlewares around a handler, the
    first of the list outermost (section 4.5). *)
Definition wrap (ms : list Middleware) (h : Handler) : Handler :=
  foldr (λ (m : Middleware) (h : Handler), m h) h ms.

(** Modelled from the spec: the operation is appended to the document,
    keyed by path and method (section 4.4). *)
Definition addOperation (doc : OpenAPISpec) (path method : string)
    (op : Operation) : OpenAPISpec :=
  {| Servers := Servers doc; Paths := <[(path, method) := op]> (Paths doc) |}.

(** Modelled from the spec: the route of a registration, its operation
    seeded with the server's tags and the options applied in call order
    (section 4.4; the schema of the response shape is left out). *)
Definition builtRoute (s : Server) (method path : string)
    (options : list RouteOption) : BaseRoute :=
  fold_left (λ rt o, applyOption o rt) options
    {| Method := method; Path := String.append (basePath s) path;
       Operation_ := set_opTags (tags s) NewOperation;
       Middlewares := []; Hidden := false |}.

(** Modelled from the spec: [register(method, path, handler, options...)]
    of section 4.4. The handler is wrapped with the server's middlewares
    and then the route's, and registered at [basePath + path]; the operation
    of a route that is not hidden is added to the document under its path
    and method. A pattern already registered is fatal: [http.ServeMux]
    panics. *)
Definition Register (s : Server) (method path : string) (h : Handler)
    (options : list RouteOption) : result (Server * BaseRoute) :=
  let route := builtRoute s method path options in
  let pattern := (Method route, Path route) in
  match Mux s !! pattern with
  | Some _ =>
      Panic "pattern conflicts with a pattern that is already registered"
  | None =>
      let s :=
        set_Mux
          (<[pattern := wrap (middlewares s ++ Middlewares route) h]>
             (Mux s)) s in
      let s :=
        if Hidden route then s
        else set_OpenApiSpec
               (addOperation (OpenApiSpec s) (Path route) (Method route)
                  (Operation_ route)) s in
      Ok (s, route)
  end.

(** Modelled from the spec: the shorthands of [Register] that the tests and
    [NewServer] call. *)
Definition Get (s : Server) (path : string) (controller : Controller)
    (options : list RouteOption) : result (Server * BaseRoute) :=
  Register s "GET" path (adapter controller) options.

Definition Post (s : Server) (path : string) (controller : Controller)
    (options : list RouteOption) : result (Server * BaseRoute) :=
  Register s "POST" path (adapter controller) options.

Definition PostStd (s : Server) (path : string) (handler : Handler)
    (options : list RouteOption) : result (Server * BaseRoute) :=
  Register s "POST" path handler options.

(** Modelled from the spec: a fluent call on a registered route writes
    through the pointer to its operation, which the document shares
    (section 3: the operation stays mutable until the export). *)
Definition fluent (rt : BaseRoute) (f : Route → Route) (s : Server)
  : Server :=
  set_OpenApiSpec
    {| Servers := Servers (OpenApiSpec s);
       Paths := alter (λ op, operation (f (mkRoute op)))
                  (Path rt, Method rt) (Paths (OpenApiSpec s)) |} s.

(** [s.Mux.ServeHTTP(w, r)] of [http.ServeMux], for patterns without
    wildcards: the handler registered for the request's method and path, or
    404. *)
Definition ServeHTTP (s : Server) (x : Exchange) : Exchange :=
  match Mux s !! (ReqMethod (r x), ReqPath (r x)) with
  | Some h => h x
  | None => mkExchange (write 404 "404 page not found" (w x)) (r x)
  end.

(** Modelled from the spec: the exported document (section 4.6). Hidden
    routes never entered it. *)
Definition OutputOpenAPISpec (s : Server) : OpenAPISpec := OpenApiSpec s.

(** Modelled from the spec: the entries of the document's path list, each
    a path and a method (section 4.4). *)
Definition PathList (doc : OpenAPISpec) : gset (string * string) :=
  dom (Paths doc).

(** Modelled from the spec: [doc.Paths.Find(path)] is not nil, as
    TestHide asks: some entry has that path. *)
Definition Paths_Find (doc : OpenAPISpec) (path : string) : bool :=
  bool_decide (Exists (λ entry, entry.1 = path) (elements (PathList doc))).

(** *** NewServer (server.go, lines 99-167) *)

(** The [Security] collaborator: the handlers and the middleware that the
    auto-auth block installs. *)
Class Security : Type := {
  LoginHandler : Controller;
  CookieLogoutHandler : Handler;
  RefreshHandler : Handler;
  TokenToContext : Middleware }.

(** Lines 110-129, with the zero value in every field not listed there. *)
Definition initialServer : Server :=
  {| Addr := ""; Mux := ∅; tags := []; middlewares := []; basePath := "";
     globalOpenAPIResponses := []; OpenApiSpec := NewOpenApiSpec;
     listener := None; autoAuthEnabled := false;
     DisallowUnknownFields := false; maxBodySize := 0;
     Serialize := None; SerializeError := None; ErrorHandler := None;
     OpenAPIConfig_ := defaultOpenAPIConfig; isTLS := false |}.

(** Lines 131-138. *)
Definition defaultOptions : list ServerOption :=
  [ WithDisallowUnknownFields true;
    WithSerializer (Some Send);
    WithErrorSerializer (Some SendError);
    WithErrorHandler (Some ErrorHandler_);
    WithGlobalResponseTypes 400
      "Bad Request _(validation or deserialization error)_" [HTTPError];
    WithGlobalResponseTypes 500
      "Internal Server Error _(panics)_" [HTTPError] ].

(** Lines 140-142: the options run in order on the same server. *)
Fixpoint applyOptions (options : list ServerOption) (s : Server)
  : Eff Server :=
  match options with
  | [] => mret s
  | option :: options => s ← option s; applyOptions options s
  end.

(** Modelled from the spec: [proto] is not among the sources; it names the
    scheme the server is reached by. *)
Definition proto (s : Server) : string :=
  if isTLS s then "https" else "http".

(** Lines 144-166, after the options have run. *)
Definition finishNewServer `{Security} (s : Server) : Eff Server :=
  s ← (if String.eqb (Addr s) "" then WithAddr "localhost:9999" s
       else mret s);
  let s :=
    set_OpenApiSpec
      {| Servers :=
           Servers (OpenApiSpec s) ++
             [mkSpecServer
                (String.append (proto s) (String.append "://" (Addr s)))
                "local server"];
         Paths := Paths (OpenApiSpec s) |} s in
  if autoAuthEnabled s then
    '(s, login) ← lift (Post s "/auth/login" LoginHandler []);
    let s := fluent login (λ rt, Route_Summary (Route_Tags rt ["Auth"])
                                   "Login") s in
    '(s, logout) ← lift (PostStd s "/auth/logout" CookieLogoutHandler []);
    let s := fluent logout (λ rt, Route_Summary (Route_Tags rt ["Auth"])
                                    "Logout") s in
    let s := set_middlewares [TokenToContext] s in
    '(s, refresh) ← lift (PostStd s "/auth/refresh" RefreshHandler []);
    let s := fluent refresh (λ rt, Route_Summary (Route_Tags rt ["Auth"])
                                     "Refresh token") s in
    mret s
  else mret s.

Definition NewServer `{Security} (options : list ServerOption)
  : Eff Server :=
  s ← applyOptions (defaultOptions ++ options) initialServer;
  finishNewServer s.

(** *** The middlewares of option_test.go (lines 16-23 and 42-53) *)

Definition dummyMiddleware : Middleware :=
  λ handler x,
    handler
      (mkExchange
         (let 'mkRecorder code hdr body wrote := w x in
          mkRecorder code (Header_Set hdr "X-Test-Response" "response") body
            wrote)
         (let 'mkRequest method path hdr := r x in
          mkRequest method path (Header_Set hdr "X-Test" "test"))).

Definition orderMiddleware (s : string) : Middleware :=
  λ handler x,
    handler
      (mkExchange
         (let 'mkRecorder code hdr body wrote := w x in
          mkRecorder code (Header_Set hdr "X-Test-Response" "response") body
            wrote)
         (let 'mkRequest method path hdr := r x in
          mkRequest method path (Header_Add hdr "X-Test-Order" s))).

(** *** Definitions for the properties of the server *)

(** The middlewares the per-route options give, in the order of the
    options. *)
Definition routeMiddlewares (options : list RouteOption)
  : list Middleware :=
  flat_map (λ o, match o with option_Middleware ms => ms | _ => [] end)
    options.

(** One of the options is [option.Hide()]. *)
Definition hides (options : list RouteOption) : bool :=
  existsb (λ o, match o with option_Hide => true | _ => false end) options.

(** The ways a configured server changes before it serves. *)
Inductive step : Server → Server → Prop :=
| step_Use s ms : step s (Use s ms)
| step_Register s method path h options s' rt :
    Register s method path h options = Ok (s', rt) → step s s'.

(** Every documented operation is routed. *)
Definition documented (s : Server) : Prop :=
  ∀ path method,
    is_Some (Paths (OpenApiSpec s) !! (path, method)) →
    is_Some (Mux s !! (method, path)).

(** What [orderMiddleware s] does to the exchange before it calls the next
    handler. *)
Definition stamp (x : Exchange) (s : string) : Exchange :=
  mkExchange
    (let 'mkRecorder code hdr body wrote := w x in
     mkRecorder code (Header_Set hdr "X-Test-Response" "response") body
       wrote)
    (let 'mkRequest method path hdr := r x in
     mkRequest method path (Header_Add hdr "X-Test-Order" s)).

(** The server after the default options of [NewServer]. *)
Definition afterDefaults : Server :=
  set_globalOpenAPIResponses
    [ mkOpenAPIError 400
        "Bad Request _(validation or deserialization error)_" HTTPError;
      mkOpenAPIError 500 "Internal Server Error _(panics)_" HTTPError ]
    (set_ErrorHandler (Some ErrorHandler_)
       (set_SerializeError (Some SendError)
          (set_Serialize (Some Send)
             (set_DisallowUnknownFields true initialServer)))).

(** [fuego.NewServer()] *)
Definition newServer : Server :=
  set_OpenApiSpec
    {| Servers := [mkSpecServer "http://localhost:9999" "local server"];
       Paths := ∅ |}
    (set_Addr "localhost:9999" afterDefaults).

(** The configuration [WithOpenAPIConfig] leaves in the server: a field of
    the argument that is empty (or nil) keeps the server's current value,
    the four flags are copied. *)
Definition mergeConfig (arg cur : OpenAPIConfig) : OpenAPIConfig :=
  {| DisableSwagger := DisableSwagger arg;
     DisableSwaggerUI := DisableSwaggerUI arg;
     DisableLocalSave := DisableLocalSave arg;
     SwaggerUrl :=
       if decide (SwaggerUrl arg = "") then SwaggerUrl cur
       else SwaggerUrl arg;
     UIHandler :=
       if decide (UIHandler arg = None) then UIHandler cur
       else UIHandler arg;
     JsonUrl :=
       if decide (JsonUrl arg = "") then JsonUrl cur else JsonUrl arg;
     JsonFilePath :=
       if decide (JsonFilePath arg = "") then JsonFilePath cur
       else JsonFilePath arg;
     PrettyFormatJson := PrettyFormatJson arg |}.

Definition isError (rec : LogRecord) : Prop := level rec = LevelError.

(** [strings.HasSuffix] and [strings.HasPrefix]. *)
Definition strings_HasSuffix (s suffix : string) : bool :=
  String.eqb
    (String.substring (String.length s - String.length suffix)
       (String.length suffix) s) suffix
  && (String.length suffix <=? String.length s)%nat.

Definition strings_HasPrefix (s prefix : string) : bool :=
  String.prefix prefix s.

(** An instance of the path-syntax checks, to run the options on the values
    of TestWithOpenAPIConfig: a URL starts with a slash, a local path does
    not, the JSON ones end in [.json], and none holds a space. It accepts
    the three defaults and rejects the values the tests call invalid. *)
Definition samplePathSyntax : PathSyntax := {|
  validateJsonSpecUrl u :=
    strings_HasPrefix u "/" && strings_HasSuffix u ".json"
    && negb (strings_Contains u " ");
  validateSwaggerUrl u :=
    strings_HasPrefix u "/" && negb (strings_Contains u " ");
  validateJsonSpecLocalPath p :=
    negb (strings_HasPrefix p "/") && strings_HasSuffix p ".json"
    && negb (strings_Contains p " ") |}.

(** A configuration that sets the local file path only, to the path
    TestWithOpenAPIConfig calls invalid. *)
Definition invalidLocalPath : OpenAPIConfig :=
  {| DisableSwagger := false; DisableSwaggerUI := false;
     DisableLocalSave := false; SwaggerUrl := ""; UIHandler := None;
     JsonUrl := ""; JsonFilePath := "path/to/jsonSpec";
     PrettyFormatJson := false |}.

(** A [Security] collaborator that does nothing. *)
Definition testSecurity : Security := {|
  LoginHandler := λ _, Returns "";
  CookieLogoutHandler := λ x, x;
  RefreshHandler := λ x, x;
  TokenToContext := λ h, h |}.

(** The controllers and requests of option_test.go. *)
Definition helloWorld : Controller := λ _, Returns "hello world".
Definition test : Controller := λ _, Returns "test".

Definition NewRequest (method target : string) : Exchange :=
  mkExchange NewRecorder (mkRequest method target ∅).

Definition NewRequestFrom (method target : string) (start : string)
  : Exchange :=
  mkExchange NewRecorder
    (mkRequest method target (Header_Set ∅ "X-Test-Order" start)).

Definition serverOf (m : result (Server * BaseRoute)) : Server :=
  match m with
  | Ok (s, _) => s
  | Panic _ => initialServer
  end.


(** The two registrations of TestHide. *)
Definition hiddenRegistered : result (Server * BaseRoute) :=
  Get newServer "/hidden" helloWorld [option_Hide].

Definition visibleRegistered : result (Server * BaseRoute) :=
  Get (serverOf hiddenRegistered) "/visible" helloWorld [].

End Fuego.

(** ** The earlier [WithOpenAPIConfig] (options.go)

    options.go holds an earlier state of the same package, in which
    [OpenAPIConfig] has five fields and the option replaces the whole
    configuration. *)
Module FuegoOptions.

Import Fuego.

(** Lines 18-24. *)
Record OpenAPIConfig : Type := mkOpenAPIConfig {
  DisableSwagger : bool;
  DisableLocalSave : bool;
  SwaggerUrl : string;
  JsonUrl : string;
  JsonFilePath : string }.

(** Lines 26-30. *)
Definition defaultOpenAPIConfig : OpenAPIConfig :=
  {| DisableSwagger := false; DisableLocalSave := false;
     SwaggerUrl := "/swagger"; JsonUrl := "/swagger/openapi.json";
     JsonFilePath := "doc/openapi.json" |}.

(** The one field of [Server] that the option reads or writes. *)
Record Server : Type := mkServer { OpenAPIConfig_ : OpenAPIConfig }.

(** Lines 268-299. *)
Definition WithOpenAPIConfig `{PathSyntax} (openapiConfig : OpenAPIConfig)
  : Server → Eff Server :=
  λ s,
    let cfg := openapiConfig in
    let cfg :=
      {| DisableSwagger := DisableSwagger cfg;
         DisableLocalSave := DisableLocalSave cfg;
         JsonUrl :=
           if String.eqb (JsonUrl cfg) "" then JsonUrl defaultOpenAPIConfig
           else JsonUrl cfg;
         SwaggerUrl :=
           if String.eqb (SwaggerUrl cfg) ""
           then SwaggerUrl defaultOpenAPIConfig else SwaggerUrl cfg;
         JsonFilePath :=
           if String.eqb (JsonFilePath cfg) ""
           then JsonFilePath defaultOpenAPIConfig else JsonFilePath cfg |} in
    let s := mkServer cfg in
    if negb (validateJsonSpecLocalPath (JsonFilePath (OpenAPIConfig_ s)))
    then
      _ ← slog_Error
            "Error writing json spec. Value of 'jsonSpecLocalPath' option is not valid"
            [("file", JsonFilePath (OpenAPIConfig_ s))];
      mret s
    else if negb (validateJsonSpecUrl (JsonUrl (OpenAPIConfig_ s))) then
      _ ← slog_Error
            "Error serving openapi json spec. Value of 's.OpenAPIConfig.JsonSpecUrl' option is not valid"
            [("url", JsonUrl (OpenAPIConfig_ s))];
      mret s
    else if negb (validateSwaggerUrl (SwaggerUrl (OpenAPIConfig_ s))) then
      _ ← slog_Error
            "Error serving swagger ui. Value of 's.OpenAPIConfig.SwaggerUrl' option is not valid"
            [("url", SwaggerUrl (OpenAPIConfig_ s))];
      mret s
    else mret s.

(** The configuration this [WithOpenAPIConfig] leaves in the server: the
    argument, its empty fields replaced by the defaults. *)
Definition withDefaults (arg : OpenAPIConfig) : OpenAPIConfig :=
  {| DisableSwagger := DisableSwagger arg;
     DisableLocalSave := DisableLocalSave arg;
     SwaggerUrl :=
       if decide (SwaggerUrl arg = "") then "/swagger" else SwaggerUrl arg;
     JsonUrl :=
       if decide (JsonUrl arg = "") then "/swagger/openapi.json"
       else JsonUrl arg;
     JsonFilePath :=
       if decide (JsonFilePath arg = "") then "doc/openapi.json"
       else JsonFilePath arg |}.

End FuegoOptions.

(** ** WithPort (server.go, lines 294-301)

    The deprecated option that sets the address from a port number,
    [fmt.Sprintf("localhost:%d", port)]; [pretty] prints an integer in
    decimal, with a minus sign when negative, as [%d] does. *)
Module FuegoPort.

Import Fuego.

Definition WithPort (port : Z) : ServerOption :=
  λ s, mret (set_Addr (String.append "localhost:" (pretty port)) s).

End FuegoPort.

(** ** The parameters of a server (server.go, lines 492-532)

    [Param], [Header], [Cookie] and [Query] register a parameter for all the
    routes of the server, in the map [s.params]. *)
Module FuegoParams.

(** Modelled from the spec: the declarations of [OpenAPIParam] and
    [OpenAPIParamOption] as server.go uses them are not among the sources
    (part_003 declares an earlier [OpenAPIParam], without name and
    description), and the specification does not describe them. The records
    hold the fields that lines 493-532 read and write, under the names used
    there; a parameter type is compared with the empty string at line 503,
    so it is a string. *)
Record OpenAPIParam : Type := mkParam {
  Name : string;
  Description : string;
  Required : bool;
  Example_ : string;
  Type_ : string }.

Record OpenAPIParamOption : Type := mkParamOption {
  OptRequired : bool;
  OptExample : string;
  OptType : string }.

(** The constants [HeaderParamType], [CookieParamType] and [QueryParamType]
    are not among the sources: they are parameters of the embedding. *)
Class ParamTypes : Type := {
  HeaderParamType : string;
  CookieParamType : string;
  QueryParamType : string }.

(** The one field of [Server] that the four methods read or write; a Go map
    may be nil. *)
Record Server : Type := mkServer {
  params : option (gmap string OpenAPIParam) }.

(** Lines 496-506: the options are read in order; a required one makes the
    parameter required, an example or a type that is not empty replaces the
    one before. *)
Definition applyParamOption (param : OpenAPIParam) (p : OpenAPIParamOption)
  : OpenAPIParam :=
  let param :=
    if OptRequired p
    then mkParam (Name param) (Description param) (OptRequired p)
           (Example_ param) (Type_ param)
    else param in
  let param :=
    if negb (String.eqb (OptExample p) "")
    then mkParam (Name param) (Description param) (Required param)
           (OptExample p) (Type_ param)
    else param in
  if negb (String.eqb (OptType p) "")
  then mkParam (Name param) (Description param) (Required param)
         (Example_ param) (OptType p)
  else param.

(** Lines 493-514. *)
Definition Param (s : Server) (name description : string)
    (params_ : list OpenAPIParamOption) : Server :=
  let param :=
    fold_left applyParamOption params_ (mkParam name description false "" "")
  in
  let m :=
    match params s with
    | None => ∅
    | Some m => m
    end in
  mkServer (Some (<[name := param]> m)).

(** Lines 517-520. *)
Definition Header `{ParamTypes} (s : Server) (name description : string)
    (params_ : list OpenAPIParamOption) : Server :=
  Param s name description
    (params_ ++ [mkParamOption false "" HeaderParamType]).

(** Lines 523-526. *)
Definition Cookie `{ParamTypes} (s : Server) (name description : string)
    (params_ : list OpenAPIParamOption) : Server :=
  Param s name description
    (params_ ++ [mkParamOption false "" CookieParamType]).

(** Lines 529-532. *)
Definition Query `{ParamTypes} (s : Server) (name description : string)
    (params_ : list OpenAPIParamOption) : Server :=
  Param s name description
    (params_ ++ [mkParamOption false "" QueryParamType]).

(** The map of a server, empty when nil. *)
Definition paramsOf (s : Server) : gmap string OpenAPIParam :=
  default ∅ (params s).

(** The parameter types of the older [Route.Header], [Route.Cookie] and
    [Route.QueryParam]. *)
Definition routeParamTypes : ParamTypes :=
  {| HeaderParamType := "header"; CookieParamType := "cookie";
     QueryParamType := "query" |}.

End FuegoParams.

(** ** Measures and shapes for the properties

    What the properties below count or read off a list, and one more shape
    to run [ToSchema] on. *)
Module Support.

Import Openapi3 Fuego.


(** The last string of [l] that is not empty, or [d] when there is none. *)
Definition lastNonEmptyOr (d : string) (l : list string) : string :=
  default d (last (filter (λ x, x ≠ "") l)).

(** The last value of [l] that is not nil, or [d] when there is none. *)
Definition lastGivenOr {A} (d : option A) (l : list (option A)) : option A :=
  default d (last (filter (λ x, x ≠ None) l)).

(** The response [WithGlobalResponseTypes(code, description, errorType...)]
    documents: of the error types only the first counts, and [HTTPError]
    stands in when none is given. *)
Definition responseOf (call : Z * string * list ErrorType) : openAPIError :=
  mkOpenAPIError call.1.1 call.1.2 (default HTTPError (head call.2)).

(** The option a call of [WithGlobalResponseTypes] gives. *)
Definition globalResponseOption (call : Z * string * list ErrorType)
  : ServerOption :=
  WithGlobalResponseTypes call.1.1 call.1.2 call.2.


(** A listener on a given address, without TLS. *)
Definition plainListener (addr : string) : Listener :=
  {| ListenerAddr := addr; ListenerIsTLS := false |}.

End Support.

(** * Properties *)

Import Openapi3 Fuego.

(** ** ToSchema *)

Section ToSchema_properties.

Lemma toSchemaValue_struct name fields :
  toSchemaValue (StructT name fields) = structFields fields emptyObject.
Proof.
  cbn [toSchemaValue]. generalize emptyObject.
  induction fields as [|[f ft] rest IH]; intros s; [reflexivity|].
  cbn [structFields]. unfold structField.
  destruct (decide (KindOf ft = Struct)).
  - destruct (Exported f); [|reflexivity].
    destruct (toSchemaValue ft); [apply IH|reflexivity].
  - apply IH.
Qed.

Lemma toSchemaValue_slice name elem :
  toSchemaValue (SliceT name elem) =
  items ← toSchemaValue (itemTypeOf elem);
  Ok {| Type_ := "array"; Properties := ∅; Items := Some items;
        Required := []; Format := ""; Example_ := "" |}.
Proof. reflexivity. Qed.

Lemma synthesizable_struct name fields :
  synthesizable (StructT name fields) = forallb fieldOk fields.
Proof.
  cbn [synthesizable]. induction fields as [|[f ft] rest IH]; [reflexivity|].
  cbn [forallb]. rewrite <- IH. reflexivity.
Qed.

Lemma ToSchema_ZeroValue_struct_kind t :
  KindOf t = Struct → ToSchema (ZeroValue t) = Some <$> toSchemaValue t.
Proof. by destruct t as [[] ?| | | |]. Qed.

(** A pointer to a value is followed once, so a pointer to the zero value
    of a shape gives what the zero value gives, unless the shape is itself
    a pointer or an interface, whose zero values are nil. *)
Lemma ToSchema_New t :
  KindOf t ≠ Pointer → KindOf t ≠ Interface →
  ToSchema (New t) = ToSchema (ZeroValue t).
Proof. intros Hp Hi. destruct t as [[] ?| | | |]; done. Qed.

Example ToSchema_nil :
  ToSchema nil_ = Ok None ∧
  ToSchema (ZeroValue (BasicT Interface "error")) = Ok None ∧
  ToSchema (ZeroValue (PtrT User))
    = Panic "reflect: call of reflect.Value.Interface on zero Value".
Proof. repeat split. Qed.

(** *** ToSchema returns exactly on the synthesizable shapes *)

Lemma structFields_total fields :
  Forall (λ f, synthesizable f.2 = true → ∃ s, toSchemaValue f.2 = Ok s)
    fields →
  forallb fieldOk fields = true →
  ∀ s, ∃ s', structFields fields s = Ok s'.
Proof.
  induction 1 as [|[f ft] rest Hf _ IH]; intros Hok s; [by eexists|].
  cbn [forallb] in Hok. apply andb_prop in Hok as [Hok1 Hok2].
  cbn [structFields]. unfold structField, fieldOk in *. cbn [fst snd] in *.
  destruct (decide (KindOf ft = Struct)).
  - apply andb_prop in Hok1 as [-> Hft].
    destruct (Hf Hft) as [sub ->]. cbn. by apply IH.
  - cbn. by apply IH.
Qed.

Lemma toSchemaValue_total t :
  synthesizable t = true → ∃ s, toSchemaValue t = Ok s.
Proof.
  induction t as [k name| |name fields IH|name elem _ IH|elem IH]
    using GoType_induction.
  - by eexists.
  - by eexists.
  - rewrite synthesizable_struct, toSchemaValue_struct. intros.
    by apply structFields_total.
  - rewrite toSchemaValue_slice. cbn [synthesizable]. intros Hs.
    destruct (IH Hs) as [items ->]. by eexists.
  - by eexists.
Qed.



(** *** What the loop over the fields leaves in the schema *)

Lemma structFields_inv fields : ∀ s s',
  structFields fields s = Ok s' →
  ∃ entries,
    Forall2 stored fields entries ∧
    Type_ s' = Type_ s ∧ Items s' = Items s ∧
    Required s' = Required s ++ requiredNames fields ∧
    Properties s' = insertAll (Properties s) entries.
Proof.
  induction fields as [|[f ft] rest IH]; intros s s' H.
  - injection H as <-. exists []. rewrite app_nil_r. by repeat split.
  - cbn [structFields] in H.
    destruct (structField s f ft) as [s1|] eqn:E1; [|discriminate].
    cbn in H.
    destruct (IH _ _ H) as (entries & HF & Hty & Hit & Hreq & Hprop).
    unfold structField in E1. cbn [requiredNames].
    destruct (decide (KindOf ft = Struct)) as [Hk|Hk].
    + destruct (Exported f) eqn:Hex; [|discriminate].
      destruct (toSchemaValue ft) as [sub|] eqn:Hsub; [|discriminate].
      injection E1 as <-. exists ((fieldName f, sub) :: entries).
      repeat split; try done.
      constructor; [|done]. split; [done|]. unfold fieldSchema. cbn.
      rewrite decide_True by done. by rewrite Hex.
    + injection E1 as <-.
      exists ((fieldName f, basicField f ft) :: entries).
      fold (markedRequired f) in *.
      repeat split.
      * constructor; [|done]. split; [done|]. unfold fieldSchema. cbn.
        by rewrite decide_False.
      * rewrite Hty. by destruct (markedRequired f).
      * rewrite Hit. by destruct (markedRequired f).
      * rewrite Hreq. destruct (markedRequired f); cbn; [|done].
        by rewrite <- app_assoc.
      * rewrite Hprop. by destruct (markedRequired f).
Qed.

(** Assigning in order leaves, for each name, the last value assigned. *)
Lemma insertAll_list_to_map entries : ∀ m,
  insertAll m entries = list_to_map (reverse entries) ∪ m.
Proof.
  unfold insertAll.
  induction entries as [|[k v] rest IH]; intros m; cbn [foldl].
  - rewrite reverse_nil. cbn. by rewrite (left_id_L ∅ (∪)).
  - rewrite IH, reverse_cons, list_to_map_app.
    cbn [list_to_map foldr fst snd uncurry].
    rewrite <- (assoc_L (∪)). f_equal.
    by rewrite insert_union_singleton_l, insert_empty.
Qed.

(** The required list of a struct shape holds the names of the fields
    marked required that are not of struct kind, in declaration order. *)
Lemma ToSchema_struct_required name fields s :
  ToSchema (ZeroValue (StructT name fields)) = Ok (Some s) →
  Required s = requiredNames fields.
Proof.
  cbn [ToSchema]. rewrite toSchemaValue_struct.
  destruct (structFields fields emptyObject) as [s'|] eqn:E; [|discriminate].
  intros [= <-].
  by destruct (structFields_inv _ _ _ E) as (_ & _ & _ & _ & -> & _).
Qed.

(** The kinds whose name holds "int", booleans and strings. *)
Lemma scalar_integer_boolean_string name :
  Forall (λ k, ToSchema (ZeroValue (BasicT k name))
               = Ok (Some (setType emptyObject "integer")))
    [Int; Int8; Int16; Int32; Int64;
     Uint; Uint8; Uint16; Uint32; Uint64; Uintptr] ∧
  ToSchema (ZeroValue (BasicT Bool name))
    = Ok (Some (setType emptyObject "boolean")) ∧
  ToSchema (ZeroValue (BasicT String_ name))
    = Ok (Some (setType emptyObject "string")).
Proof. split; [repeat constructor|split; reflexivity]. Qed.

(** The other kinds keep the name of their kind, except that the test for
    "int" also catches "interface": the items of a [[]any]. *)
Example other_kinds_keep_their_name :
  ToSchema (ZeroValue (BasicT Map "")) = Ok (Some (setType emptyObject "map")) ∧
  ToSchema (ZeroValue (BasicT Complex128 "complex128"))
    = Ok (Some (setType emptyObject "complex128")) ∧
  ToSchema (New (PtrT stringT)) = Ok (Some (setType emptyObject "ptr")) ∧
  ToSchema (New (BasicT Interface ""))
    = Ok (Some (setType emptyObject "integer")).
Proof. repeat split. Qed.

Lemma AB_BA_same_schema : ToSchema (ZeroValue AB) = ToSchema (ZeroValue BA).
Proof. vm_compute. reflexivity. Qed.

(** C1, at a struct with a nested struct and a time, all three fields marked
    required: the fields marked required are "name", "Address" and
    "CreatedAt", yet the required list of the schema is "name" alone; the
    two fields of struct kind are left out. The required field of the
    nested struct is in the required list of its own schema. *)
Theorem C1_required_leaves_out_struct_fields :
  ∃ s address,
    ToSchema (ZeroValue User) = Ok (Some s) ∧
    map (λ f, fieldName f.1)
      (filter (λ f, markedRequired f.1 = true) (fieldsOf User))
      = ["name"; "Address"; "CreatedAt"] ∧
    Required s = ["name"] ∧
    Properties s !! "Address" = Some address ∧
    Required address = ["City"].
Proof. do 2 eexists. repeat split; vm_compute; reflexivity. Qed.

(** C2, as stated, fails: no reading of a schema gives back the declaration
    order of the fields, since two structs that declare the same fields in
    different orders have the same schema. *)
Lemma C2_properties_keep_no_order :
  ¬ ∃ order : Schema → list string,
      ∀ name fields s,
        ToSchema (ZeroValue (StructT name fields)) = Ok (Some s) →
        order s = map (λ f, fieldName f.1) fields.
Proof.
  intros [order H].
  destruct (ToSchema (ZeroValue AB)) as [[s|]|] eqn:E;
    try (vm_compute in E; discriminate).
  pose proof (H _ _ _ E) as H1.
  rewrite AB_BA_same_schema in E.
  pose proof (H _ _ _ E) as H2.
  rewrite H1 in H2. vm_compute in H2. discriminate.
Qed.

(** C2, amended: for every struct shape with no unexported field of struct
    kind, [ToSchema] returns a schema of type "object" whose properties are
    a map from names to schemas, without order: it holds, for the external
    name of each field, the schema of the last field declared with that
    name, which for a field of struct kind is the schema [ToSchema]
    returns for that field. *)
Theorem C2_struct_is_object_with_property_map name fields :
  synthesizable (StructT name fields) = true →
  ∃ s entries,
    ToSchema (ZeroValue (StructT name fields)) = Ok (Some s) ∧
    Type_ s = "object" ∧
    Forall2
      (λ f e,
         e.1 = fieldName f.1 ∧
         if decide (KindOf f.2 = Struct)
         then ToSchema (ZeroValue f.2) = Ok (Some e.2)
         else e.2 = basicField f.1 f.2) fields entries ∧
    Properties s = list_to_map (reverse entries).
Proof.
  intros Hs. destruct (toSchemaValue_total _ Hs) as [s Hval].
  pose proof Hval as Hloop. rewrite toSchemaValue_struct in Hloop.
  destruct (structFields_inv _ _ _ Hloop)
    as (entries & HF & Hty & _ & _ & Hprop).
  exists s, entries. split; [|split; [|split]].
  - cbn [ToSchema]. by rewrite Hval.
  - by rewrite Hty.
  - eapply Forall2_impl; [exact HF|]. intros f e [Hname Hsch].
    split; [done|]. unfold fieldSchema in Hsch.
    destruct (decide (KindOf f.2 = Struct)) as [Hk|Hk].
    + rewrite ToSchema_ZeroValue_struct_kind by done.
      destruct (Exported f.1); [|discriminate]. by rewrite Hsch.
    + by injection Hsch.
  - rewrite Hprop, insertAll_list_to_map. cbn.
    by rewrite (right_id_L ∅ (∪)).
Qed.

Lemma C2_struct_is_object_with_property_map_witness :
  synthesizable (StructT "User" (fieldsOf User)) = true ∧
  ∃ s entries,
    ToSchema (ZeroValue (StructT "User" (fieldsOf User))) = Ok (Some s) ∧
    Type_ s = "object" ∧
    Forall2
      (λ f e,
         e.1 = fieldName f.1 ∧
         if decide (KindOf f.2 = Struct)
         then ToSchema (ZeroValue f.2) = Ok (Some e.2)
         else e.2 = basicField f.1 f.2) (fieldsOf User) entries ∧
    Properties s = list_to_map (reverse entries).
Proof.
  split; [reflexivity|].
  apply (C2_struct_is_object_with_property_map "User" (fieldsOf User)).
  reflexivity.
Defined.

(** C3, at the floating-point kinds: the type of the schema is the name of
    the kind, "float64" or "float32", and not "number". *)
Theorem C3_float_kinds_keep_their_kind_name name :
  ToSchema (ZeroValue (BasicT Float64 name))
    = Ok (Some (setType emptyObject "float64")) ∧
  ToSchema (ZeroValue (BasicT Float32 name))
    = Ok (Some (setType emptyObject "float32")).
Proof. split; reflexivity. Qed.



End ToSchema_properties.

(** ** Tags *)

Section Tags_properties.






Example RemoveTags_repeated :
  removeTags ["a"; "b"; "a"; "c"; "a"] ["a"] = ["b"; "a"; "c"; "a"] ∧
  removeTags ["a"; "b"; "a"; "c"; "a"] ["a"; "a"] = ["b"; "c"; "a"] ∧
  removeTags ["a"; "b"] ["z"] = ["a"; "b"].
Proof. repeat split. Qed.


End Tags_properties.

(** ** Options and NewServer *)

Section Options_properties.

Lemma Eff_eta {A} (e : Eff A) : mkEff (outcome e) (logs e) = e.
Proof. by destruct e. Qed.

Lemma Eff_bind_ret_l {A B} (a : A) (k : A → Eff B) : (mret a ≫= k) = k a.
Proof. unfold mbind, Eff_bind, mret, Eff_ret. cbn. apply Eff_eta. Qed.

Lemma Eff_bind_assoc {A B C}
    (m : Eff A) (k : A → Eff B) (k' : B → Eff C) :
  ((m ≫= k) ≫= k') = (m ≫= λ a, k a ≫= k').
Proof.
  unfold mbind, Eff_bind. destruct m as [[a|msg] lg]; cbn; [|reflexivity].
  destruct (k a) as [[b|msg] lg']; cbn; [|reflexivity].
  destruct (k' b) as [o lg'']; cbn. by rewrite app_assoc.
Qed.

Lemma applyOptions_app (a b : list ServerOption) s :
  applyOptions (a ++ b) s = (s' ← applyOptions a s; applyOptions b s').
Proof.
  revert s. induction a as [|o a IH]; intros s; cbn [app applyOptions].
  - by rewrite Eff_bind_ret_l.
  - rewrite Eff_bind_assoc. unfold mbind at 1 3, Eff_bind.
    destruct (o s) as [[s1|msg] lg]; cbn; [|reflexivity]. by rewrite IH.
Qed.

Lemma defaultOptions_run :
  applyOptions defaultOptions initialServer = mret afterDefaults.
Proof. reflexivity. Qed.

Lemma NewServer_nil `{Security} : NewServer [] = mret newServer.
Proof. reflexivity. Qed.

(** C9: the default options leave, before any user option runs, a server
    whose [DisallowUnknownFields] is true and whose serializer, error
    serializer and error handler are [Send], [SendError] and
    [ErrorHandler]; the user options run on that server; and with no user
    option [NewServer] returns a server with the same four settings. *)
Theorem C9_defaults_before_user_options `{Security} :
  applyOptions defaultOptions initialServer = mret afterDefaults ∧
  DisallowUnknownFields afterDefaults = true ∧
  Serialize afterDefaults = Some Send ∧
  SerializeError afterDefaults = Some SendError ∧
  ErrorHandler afterDefaults = Some ErrorHandler_ ∧
  (∀ options,
     NewServer options
     = (s ← applyOptions options afterDefaults; finishNewServer s)) ∧
  ∃ s, NewServer [] = mret s ∧
       DisallowUnknownFields s = true ∧
       Serialize s = Some Send ∧
       SerializeError s = Some SendError ∧
       ErrorHandler s = Some ErrorHandler_.
Proof.
  do 5 (split; [reflexivity|]). split.
  - intros options. unfold NewServer.
    by rewrite applyOptions_app, defaultOptions_run, Eff_bind_ret_l.
  - eexists. by repeat split.
Qed.

Example samplePathSyntax_on_test_values :
  let _ := samplePathSyntax in
  validateSwaggerUrl "/swagger" = true ∧
  validateJsonSpecUrl "/swagger/openapi.json" = true ∧
  validateJsonSpecLocalPath "doc/openapi.json" = true ∧
  validateSwaggerUrl "/api" = true ∧
  validateJsonSpecUrl "/api/openapi.json" = true ∧
  validateJsonSpecLocalPath "openapi.json" = true ∧
  validateJsonSpecLocalPath "path/to/jsonSpec" = false ∧
  validateJsonSpecUrl "pi/op  enapi.json" = false ∧
  validateSwaggerUrl "p   i" = false ∧
  validateSwaggerUrl "invalid path" = false.
Proof. repeat split. Qed.

Lemma eqb_decide (a b : string) {A} (x y : A) :
  (if String.eqb a b then x else y) = (if decide (a = b) then x else y).
Proof.
  destruct (String.eqb a b) eqn:E; case_decide; try done.
  - by apply String.eqb_eq in E.
  - by apply String.eqb_neq in E.
Qed.

Lemma negb_eqb_decide (a b : string) {A} (x y : A) :
  (if negb (String.eqb a b) then x else y)
  = (if decide (a = b) then y else x).
Proof.
  destruct (String.eqb a b) eqn:E; case_decide; try done.
  - by apply String.eqb_eq in E.
  - by apply String.eqb_neq in E.
Qed.

(** C8, as stated, fails on server.go: applied first to a new server with a
    local file path that fails the path-syntax check, the option logs
    nothing; the path stays configured and saving stays enabled. *)
Lemma C8_local_path_is_not_checked :
  @validateJsonSpecLocalPath samplePathSyntax "path/to/jsonSpec" = false ∧
  ∃ s,
    @WithOpenAPIConfig samplePathSyntax invalidLocalPath afterDefaults
      = mkEff (Ok s) [] ∧
    JsonFilePath (OpenAPIConfig_ s) = "path/to/jsonSpec" ∧
    DisableLocalSave (OpenAPIConfig_ s) = false ∧
    DisableSwagger (OpenAPIConfig_ s) = false.
Proof. split; [reflexivity|]. eexists. by repeat split. Qed.

(** C8, amended. [WithOpenAPIConfig] never panics and never changes the
    configuration because of a check; a failing check only logs one error.

    - server.go: each of the two URLs, the local file path and the UI
      handler is overwritten when the argument gives it and keeps the
      server's current value otherwise, so that on a server that still has
      the defaults an empty field leaves /swagger, /swagger/openapi.json or
      doc/openapi.json in place; the four flags are copied. The spec-JSON
      URL and the UI URL are checked, the local file path is not: nothing
      is logged when both URLs pass, one error otherwise.
    - options.go: the configuration is the argument with its empty fields
      replaced by the three defaults. The local file path, the spec-JSON
      URL and the UI URL are checked: nothing is logged when all pass, one
      error otherwise. *)
Theorem C8_config_checked_and_kept `{PathSyntax}
    (arg : OpenAPIConfig) (s : Server)
    (arg' : FuegoOptions.OpenAPIConfig) (s' : FuegoOptions.Server) :
  let e := WithOpenAPIConfig arg s in
  let cfg := mergeConfig arg (OpenAPIConfig_ s) in
  let e' := FuegoOptions.WithOpenAPIConfig arg' s' in
  let cfg' := FuegoOptions.withDefaults arg' in
  outcome e = Ok (set_OpenAPIConfig cfg s) ∧
  (OpenAPIConfig_ s = defaultOpenAPIConfig →
     (SwaggerUrl arg = "" → SwaggerUrl cfg = "/swagger") ∧
     (JsonUrl arg = "" → JsonUrl cfg = "/swagger/openapi.json") ∧
     (JsonFilePath arg = "" → JsonFilePath cfg = "doc/openapi.json")) ∧
  (validateJsonSpecUrl (JsonUrl cfg)
   && validateSwaggerUrl (SwaggerUrl cfg) = true → logs e = []) ∧
  (validateJsonSpecUrl (JsonUrl cfg)
   && validateSwaggerUrl (SwaggerUrl cfg) = false →
     ∃ rec, logs e = [rec] ∧ isError rec) ∧
  outcome e' = Ok (FuegoOptions.mkServer cfg') ∧
  (validateJsonSpecLocalPath (FuegoOptions.JsonFilePath cfg')
   && validateJsonSpecUrl (FuegoOptions.JsonUrl cfg')
   && validateSwaggerUrl (FuegoOptions.SwaggerUrl cfg') = true →
     logs e' = []) ∧
  (validateJsonSpecLocalPath (FuegoOptions.JsonFilePath cfg')
   && validateJsonSpecUrl (FuegoOptions.JsonUrl cfg')
   && validateSwaggerUrl (FuegoOptions.SwaggerUrl cfg') = false →
     ∃ rec, logs e' = [rec] ∧ isError rec).
Proof.
  cbn zeta.
  assert (OpenAPIConfig_
            (set_OpenAPIConfig (mergeConfig arg (OpenAPIConfig_ s)) s)
          = mergeConfig arg (OpenAPIConfig_ s)) as Hget by (by destruct s).
  assert (WithOpenAPIConfig arg s =
          let s1 := set_OpenAPIConfig (mergeConfig arg (OpenAPIConfig_ s)) s in
          if negb (validateJsonSpecUrl (JsonUrl (OpenAPIConfig_ s1))) then
            _ ← slog_Error
                  "Error serving openapi json spec. Value of 's.OpenAPIConfig.JsonSpecUrl' option is not valid"
                  [("url", JsonUrl (OpenAPIConfig_ s1))]; mret s1
          else if negb (validateSwaggerUrl (SwaggerUrl (OpenAPIConfig_ s1)))
          then
            _ ← slog_Error
                  "Error serving swagger ui. Value of 's.OpenAPIConfig.SwaggerUrl' option is not valid"
                  [("url", SwaggerUrl (OpenAPIConfig_ s1))]; mret s1
          else mret s1) as ->.
  { unfold WithOpenAPIConfig, mergeConfig. rewrite !negb_eqb_decide.
    by destruct (UIHandler arg). }
  assert (FuegoOptions.WithOpenAPIConfig arg' s' =
          let s1 := FuegoOptions.mkServer (FuegoOptions.withDefaults arg') in
          let cfg := FuegoOptions.OpenAPIConfig_ s1 in
          if negb (validateJsonSpecLocalPath (FuegoOptions.JsonFilePath cfg))
          then
            _ ← slog_Error
                  "Error writing json spec. Value of 'jsonSpecLocalPath' option is not valid"
                  [("file", FuegoOptions.JsonFilePath cfg)]; mret s1
          else if negb (validateJsonSpecUrl (FuegoOptions.JsonUrl cfg)) then
            _ ← slog_Error
                  "Error serving openapi json spec. Value of 's.OpenAPIConfig.JsonSpecUrl' option is not valid"
                  [("url", FuegoOptions.JsonUrl cfg)]; mret s1
          else if negb (validateSwaggerUrl (FuegoOptions.SwaggerUrl cfg))
          then
            _ ← slog_Error
                  "Error serving swagger ui. Value of 's.OpenAPIConfig.SwaggerUrl' option is not valid"
                  [("url", FuegoOptions.SwaggerUrl cfg)]; mret s1
          else mret s1) as ->.
  { unfold FuegoOptions.WithOpenAPIConfig, FuegoOptions.withDefaults.
    by rewrite !eqb_decide. }
  cbn zeta. rewrite Hget. cbn [FuegoOptions.OpenAPIConfig_].
  split; [|split; [|split; [|split; [|split; [|split]]]]].
  - by destruct (validateJsonSpecUrl _), (validateSwaggerUrl _).
  - intros ->. unfold mergeConfig; cbn.
    repeat split; intros ->; by rewrite decide_True.
  - destruct (validateJsonSpecUrl _), (validateSwaggerUrl _); by cbn.
  - destruct (validateJsonSpecUrl _), (validateSwaggerUrl _); cbn;
      try done; intros _; eexists; by split.
  - by destruct (validateJsonSpecLocalPath _), (validateJsonSpecUrl _),
         (validateSwaggerUrl _).
  - destruct (validateJsonSpecLocalPath _), (validateJsonSpecUrl _),
      (validateSwaggerUrl _); by cbn.
  - destruct (validateJsonSpecLocalPath _), (validateJsonSpecUrl _),
      (validateSwaggerUrl _); cbn; try done; intros _; eexists; by split.
Qed.

End Options_properties.

(** ** The route registry *)

Section Registry_properties.

Lemma applyOptions_route options : ∀ rt,
  let rt' := fold_left (λ rt o, applyOption o rt) options rt in
  Method rt' = Method rt ∧ Path rt' = Path rt ∧
  Middlewares rt' = Middlewares rt ++ routeMiddlewares options ∧
  Hidden rt' = Hidden rt || hides options.
Proof.
  induction options as [|o options IH]; intros rt; cbn zeta; cbn [fold_left].
  - cbn. rewrite app_nil_r, orb_false_r. done.
  - destruct (IH (applyOption o rt)) as (-> & -> & -> & ->).
    destruct rt as [m p op mws hd], o; cbn;
      rewrite ?app_nil_r, <- ?app_assoc, ?orb_true_r, ?orb_true_l;
      repeat split; try done.
Qed.

Lemma builtRoute_fields s method path options :
  let rt := builtRoute s method path options in
  Method rt = method ∧ Path rt = String.append (basePath s) path ∧
  Middlewares rt = routeMiddlewares options ∧ Hidden rt = hides options.
Proof. apply (applyOptions_route options). Qed.


Lemma routeMiddlewares_singletons (ms : list Middleware) :
  routeMiddlewares (map (λ m, option_Middleware [m]) ms) = ms.
Proof.
  induction ms as [|m ms IH]; [done|].
  cbn [map]. unfold routeMiddlewares in *. cbn [flat_map]. by rewrite IH.
Qed.

(** What a successful registration did. *)
Lemma Register_Ok s method path h options s' rt :
  Register s method path h options = Ok (s', rt) →
  let key := (method, String.append (basePath s) path) in
  rt = builtRoute s method path options ∧
  Mux s !! key = None ∧
  Mux s'
    = <[key := wrap (middlewares s ++ routeMiddlewares options) h]> (Mux s) ∧
  Paths (OpenApiSpec s') =
    (if hides options then Paths (OpenApiSpec s)
     else <[(String.append (basePath s) path, method) := Operation_ rt]>
            (Paths (OpenApiSpec s))) ∧
  basePath s' = basePath s ∧ middlewares s' = middlewares s.
Proof.
  unfold Register.
  pose proof (builtRoute_fields s method path options) as Hrt.
  cbn zeta in *.
  destruct (builtRoute s method path options) as [m p op mws hd].
  cbn in Hrt. destruct Hrt as (-> & -> & -> & ->).
  cbn [Method Path Middlewares Hidden Operation_].
  destruct (Mux s !! _) eqn:E; [discriminate|].
  intros [= <- <-].
  destruct s; destruct (hides options); cbn; by repeat split.
Qed.

(** A registration at a pattern already taken is fatal. *)
Lemma Register_conflict s method path h options :
  is_Some (Mux s !! (method, String.append (basePath s) path)) →
  Register s method path h options
  = Panic "pattern conflicts with a pattern that is already registered".
Proof.
  intros [h0 E]. unfold Register.
  destruct (builtRoute_fields s method path options) as (-> & -> & _ & _).
  by rewrite E.
Qed.

Lemma Use_fields s ms :
  Mux (Use s ms) = Mux s ∧ OpenApiSpec (Use s ms) = OpenApiSpec s ∧
  basePath (Use s ms) = basePath s ∧
  middlewares (Use s ms) = middlewares s ++ ms.
Proof. by destruct s. Qed.

Lemma foldl_Use s uses :
  Mux (foldl Use s uses) = Mux s ∧
  OpenApiSpec (foldl Use s uses) = OpenApiSpec s ∧
  basePath (foldl Use s uses) = basePath s ∧
  middlewares (foldl Use s uses) = middlewares s ++ concat uses.
Proof.
  revert s. induction uses as [|ms uses IH]; intros s; cbn [foldl concat].
  - by rewrite app_nil_r.
  - destruct (IH (Use s ms)) as (-> & -> & -> & ->).
    destruct (Use_fields s ms) as (-> & -> & -> & ->).
    by rewrite <- app_assoc.
Qed.

(** *** What every step keeps *)

Lemma step_inv s s' :
  step s s' →
  basePath s' = basePath s ∧
  (∀ key h, Mux s !! key = Some h → Mux s' !! key = Some h) ∧
  (∀ key, is_Some (Paths (OpenApiSpec s) !! key) →
          is_Some (Paths (OpenApiSpec s') !! key)) ∧
  (∀ path method, is_Some (Mux s !! (method, path)) →
     Paths (OpenApiSpec s) !! (path, method) = None →
     Paths (OpenApiSpec s') !! (path, method) = None).
Proof.
  destruct 1 as [s ms|s method path h options s' rt HR].
  - destruct (Use_fields s ms) as (-> & -> & -> & _). by repeat split.
  - destruct (Register_Ok _ _ _ _ _ _ _ HR) as (_ & Hfree & HM & HP & HB & _).
    cbn zeta in *. rewrite HM, HP. split; [done|]. split; [|split].
    + intros key h' Hkey. rewrite lookup_insert_ne; [done|].
      intros <-. congruence.
    + intros key Hkey. destruct (hides options); [done|].
      rewrite lookup_insert. by case_decide.
    + intros path' method' [h' Hrouted] Hundoc.
      destruct (hides options); [done|].
      rewrite lookup_insert_ne; [done|]. intros [= <- <-]. congruence.
Qed.

Lemma steps_inv s s' :
  rtc step s s' →
  basePath s' = basePath s ∧
  (∀ key h, Mux s !! key = Some h → Mux s' !! key = Some h) ∧
  (∀ key, is_Some (Paths (OpenApiSpec s) !! key) →
          is_Some (Paths (OpenApiSpec s') !! key)) ∧
  (∀ path method, is_Some (Mux s !! (method, path)) →
     Paths (OpenApiSpec s) !! (path, method) = None →
     Paths (OpenApiSpec s') !! (path, method) = None).
Proof.
  induction 1 as [s|s s1 s2 Hstep _ IH]; [by repeat split|].
  destruct (step_inv _ _ Hstep) as (HB & HM & HP & HN).
  destruct IH as (HB' & HM' & HP' & HN').
  split; [congruence|]. split; [|split]; eauto.
  intros path method [h Hrouted] Hnone. apply HN'; [|apply HN; eauto].
  eexists. eauto.
Qed.

Lemma step_documented s s' : step s s' → documented s → documented s'.
Proof.
  destruct 1 as [s ms|s method path h options s' rt HR]; unfold documented.
  - by destruct (Use_fields s ms) as (-> & -> & _).
  - destruct (Register_Ok _ _ _ _ _ _ _ HR) as (_ & _ & HM & HP & _).
    cbn zeta in *. rewrite HM, HP. intros Hdoc path' method' Hsome.
    destruct (decide ((method', path')
                      = (method, String.append (basePath s) path)))
      as [[= -> ->]|Hne].
    + by rewrite lookup_insert_eq.
    + rewrite lookup_insert_ne by done. apply Hdoc.
      destruct (hides options); [done|].
      rewrite lookup_insert_ne in Hsome; [done|]. intros [= <- <-]. done.
Qed.


(** *** Serving *)

Lemma ServeHTTP_routed s x h :
  Mux s !! (ReqMethod (r x), ReqPath (r x)) = Some h → ServeHTTP s x = h x.
Proof. unfold ServeHTTP. by intros ->. Qed.

Lemma wrap_orderMiddleware labels h x :
  wrap (map orderMiddleware labels) h x = h (foldl stamp x labels).
Proof.
  revert x. induction labels as [|l labels IH]; intros x; [reflexivity|].
  cbn [map wrap foldr foldl]. unfold orderMiddleware at 1. apply IH.
Qed.

Lemma stamp_order x labels :
  Header_Values (ReqHeader (r (foldl stamp x labels))) "X-Test-Order"
  = Header_Values (ReqHeader (r x)) "X-Test-Order" ++ labels.
Proof.
  revert x. induction labels as [|l labels IH]; intros x; cbn [foldl].
  - by rewrite app_nil_r.
  - rewrite IH. destruct x as [rec [m p hdr]]. cbn [stamp r w ReqHeader].
    unfold Header_Values, Header_Add. rewrite lookup_insert_eq.
    cbn [default from_option id]. by rewrite <- app_assoc.
Qed.

Lemma concat_map_map {A B} (f : A → B) (ls : list (list A)) :
  map f (concat ls) = concat (map (map f) ls).
Proof.
  induction ls as [|l ls IH]; [done|].
  cbn [concat map]. by rewrite map_app, IH.
Qed.

(** *** The tests of option_test.go, run *)

Example TestUse :
  let s := foldl Use newServer
             [[orderMiddleware "First!"];
              [orderMiddleware "Second!"; orderMiddleware "Third!"]] in
  let s := serverOf (Get s "/test" test
                       [option_Middleware [orderMiddleware "Fourth!"];
                        option_Middleware [orderMiddleware "Fifth!"]]) in
  let x := ServeHTTP s (NewRequestFrom "GET" "/test" "Start!") in
  Header_Values (ReqHeader (r x)) "X-Test-Order"
    = ["Start!"; "First!"; "Second!"; "Third!"; "Fourth!"; "Fifth!"] ∧
  Code (w x) = 200%Z ∧ Body (w x) = "test".
Proof. vm_compute. repeat split. Qed.

Example TestHide :
  let s := serverOf visibleRegistered in
  let spec := OutputOpenAPISpec s in
  Paths_Find spec "/visible" = true ∧ Paths_Find spec "/hidden" = false ∧
  Code (w (ServeHTTP s (NewRequest "GET" "/visible"))) = 200%Z ∧
  Body (w (ServeHTTP s (NewRequest "GET" "/visible"))) = "hello world" ∧
  Code (w (ServeHTTP s (NewRequest "GET" "/hidden"))) = 200%Z ∧
  Body (w (ServeHTTP s (NewRequest "GET" "/hidden"))) = "hello world".
Proof. vm_compute. repeat split. Qed.

Example TestPerRouteMiddleware :
  let s := serverOf (Get newServer "/withMiddleware"
                       (λ _, Returns "withmiddleware")
                       [option_Middleware [dummyMiddleware]]) in
  let s := serverOf (Get s "/withoutMiddleware"
                       (λ _, Returns "withoutmiddleware") []) in
  let x := ServeHTTP s (NewRequest "GET" "/withMiddleware") in
  let y := ServeHTTP s (NewRequest "GET" "/withoutMiddleware") in
  Body (w x) = "withmiddleware" ∧
  Header_Values (RespHeader (w x)) "X-Test-Response" = ["response"] ∧
  Body (w y) = "withoutmiddleware" ∧
  Header_Values (RespHeader (w y)) "X-Test-Response" = [].
Proof. vm_compute. repeat split. Qed.

(** C5: a request to a route registered after some calls of [Use] is served
    by the handler wrapped in the server's middlewares, in the order they
    were registered, and inside them in the route's middlewares, in the
    order of the per-route options: the first registered is outermost, the
    last per-route one is next to the handler. When each middleware appends
    its label to the X-Test-Order header, the handler sees the labels of the
    server's middlewares in registration order, then those of the route in
    option order. *)
Theorem C5_middleware_order s uses method path h options s' rt x :
  Register (foldl Use s uses) method path h options = Ok (s', rt) →
  ReqMethod (r x) = method →
  ReqPath (r x) = String.append (basePath s) path →
  ServeHTTP s' x
    = wrap (middlewares s ++ concat uses ++ routeMiddlewares options) h x ∧
  ∀ first later route,
    middlewares s = map orderMiddleware first →
    uses = map (map orderMiddleware) later →
    options = map (λ l, option_Middleware [orderMiddleware l]) route →
    ∃ x', ServeHTTP s' x = h x' ∧
          Header_Values (ReqHeader (r x')) "X-Test-Order"
          = Header_Values (ReqHeader (r x)) "X-Test-Order"
              ++ first ++ concat later ++ route.
Proof.
  intros HR Hm Hp.
  destruct (Register_Ok _ _ _ _ _ _ _ HR) as (_ & _ & HM & _).
  destruct (foldl_Use s uses) as (_ & _ & HB & HMW).
  cbn zeta in HM. rewrite HB, HMW in HM.
  assert (ServeHTTP s' x
          = wrap (middlewares s ++ concat uses ++ routeMiddlewares options)
              h x) as Hserve.
  { apply ServeHTTP_routed. rewrite HM, Hm, Hp, lookup_insert_eq.
    by rewrite <- app_assoc. }
  split; [done|].
  intros first later route Hfirst -> ->. rewrite Hserve, Hfirst.
  exists (foldl stamp x (first ++ concat later ++ route)). split.
  - rewrite <- wrap_orderMiddleware, !map_app, concat_map_map.
    rewrite <- (routeMiddlewares_singletons (map orderMiddleware route)).
    by rewrite map_map.
  - apply stamp_order.
Qed.

Lemma C5_middleware_order_witness :
  ∃ s' rt,
    let s := newServer in
    let uses := [[orderMiddleware "First!"];
                 [orderMiddleware "Second!"; orderMiddleware "Third!"]] in
    let options := [option_Middleware [orderMiddleware "Fourth!"];
                    option_Middleware [orderMiddleware "Fifth!"]] in
    let x := NewRequestFrom "GET" "/test" "Start!" in
    Register (foldl Use s uses) "GET" "/test" (adapter test) options
      = Ok (s', rt) ∧
    ReqMethod (r x) = "GET" ∧
    ReqPath (r x) = String.append (basePath s) "/test" ∧
    ServeHTTP s' x
      = wrap (middlewares s ++ concat uses ++ routeMiddlewares options)
          (adapter test) x ∧
    ∀ first later route,
      middlewares s = map orderMiddleware first →
      uses = map (map orderMiddleware) later →
      options = map (λ l, option_Middleware [orderMiddleware l]) route →
      ∃ x', ServeHTTP s' x = adapter test x' ∧
            Header_Values (ReqHeader (r x')) "X-Test-Order"
            = Header_Values (ReqHeader (r x)) "X-Test-Order"
                ++ first ++ concat later ++ route.
Proof.
  eexists _, _. cbv zeta.
  split; [reflexivity|]. split; [reflexivity|]. split; [reflexivity|].
  eapply (C5_middleware_order newServer
            [[orderMiddleware "First!"];
             [orderMiddleware "Second!"; orderMiddleware "Third!"]]
            "GET" "/test" (adapter test)
            [option_Middleware [orderMiddleware "Fourth!"];
             option_Middleware [orderMiddleware "Fifth!"]]);
    reflexivity.
Defined.



(** C7: once a route is registered, in every later state of the server a
    registration with the same method and path panics, whatever handler and
    options it brings, and the pattern still maps to the handler of the
    first registration. *)
Theorem C7_duplicate_registration_is_fatal
    s method path h options s1 rt s2 h' options' :
  Register s method path h options = Ok (s1, rt) →
  rtc step s1 s2 →
  Register s2 method path h' options'
    = Panic "pattern conflicts with a pattern that is already registered" ∧
  Mux s2 !! (method, String.append (basePath s) path)
    = Some (wrap (middlewares s ++ routeMiddlewares options) h).
Proof.
  intros HR Hsteps.
  destruct (Register_Ok _ _ _ _ _ _ _ HR) as (_ & _ & HM & _ & HB & _).
  destruct (steps_inv _ _ Hsteps) as (HB' & Hkeep & _).
  cbn zeta in HM.
  assert (Mux s2 !! (method, String.append (basePath s) path)
          = Some (wrap (middlewares s ++ routeMiddlewares options) h))
    as Hstill.
  { apply Hkeep. by rewrite HM, lookup_insert_eq. }
  split; [|done].
  apply Register_conflict. rewrite HB', HB. by eexists.
Qed.

Lemma C7_duplicate_registration_is_fatal_witness :
  ∃ s1 rt,
    let s2 := Use s1 [dummyMiddleware] in
    Register newServer "GET" "/test" (adapter test) [] = Ok (s1, rt) ∧
    rtc step s1 s2 ∧
    Register s2 "GET" "/test" (adapter helloWorld) [option_Hide]
      = Panic "pattern conflicts with a pattern that is already registered" ∧
    Mux s2 !! ("GET", String.append (basePath newServer) "/test")
      = Some (wrap (middlewares newServer ++ routeMiddlewares [])
                (adapter test)).
Proof.
  eexists _, _. cbv zeta.
  split; [reflexivity|]. split; [apply rtc_once, step_Use|].
  eapply (C7_duplicate_registration_is_fatal newServer "GET" "/test"
            (adapter test) []);
    [reflexivity|apply rtc_once, step_Use].
Defined.

End Registry_properties.

(** ** ToSchema: when it returns, and what a struct schema holds *)

Section ToSchema_returns.

Import Support.

Lemma stored_names fields entries :
  Forall2 stored fields entries →
  entries.*1 = map (λ f, fieldName f.1) fields.
Proof.
  induction 1 as [|f e fields entries [Hn _] _ IH]; [done|].
  cbn. by rewrite Hn, IH.
Qed.

Lemma requiredNames_sublist fields :
  requiredNames fields `sublist_of` map (λ f, fieldName f.1) fields.
Proof.
  induction fields as [|[f ft] fields IH]; [done|]. cbn [requiredNames map].
  destruct (decide (KindOf ft = Struct)); [by apply sublist_cons|].
  destruct (markedRequired f); [by apply sublist_skip|by apply sublist_cons].
Qed.




(** X2: in the schema of a struct, the keys of the properties are exactly
    the external names of the fields (the [json] tag, or the declared
    name); the required list is a sublist of these names in declaration
    order, so every required name is the key of a property; and a struct
    schema has no items. *)
Theorem struct_schema_keys name fields :
  synthesizable (StructT name fields) = true →
  ∃ s,
    ToSchema (ZeroValue (StructT name fields)) = Ok (Some s) ∧
    dom (Properties s) = list_to_set (map (λ f, fieldName f.1) fields) ∧
    Required s `sublist_of` map (λ f, fieldName f.1) fields ∧
    (∀ n, n ∈ Required s → n ∈ dom (Properties s)) ∧
    Items s = None.
Proof.
  intros Hs. destruct (toSchemaValue_total _ Hs) as [s Hval].
  exists s. cbn [ToSchema]. rewrite Hval. split; [done|].
  rewrite toSchemaValue_struct in Hval.
  destruct (structFields_inv _ _ _ Hval) as (entries & HF & _ & Hit & Hreq & Hprop).
  cbn in Hreq, Hit, Hprop.
  assert (dom (Properties s)
          =@{gset string} list_to_set (map (λ f, fieldName f.1) fields))
    as Hdom.
  { rewrite Hprop, insertAll_list_to_map, (right_id_L ∅ (∪)).
    rewrite dom_list_to_map_L, <- (stored_names _ _ HF).
    apply set_eq. intros n. rewrite !elem_of_list_to_set, fmap_reverse.
    apply elem_of_reverse. }
  split; [done|]. rewrite Hreq. split; [apply requiredNames_sublist|].
  split; [|done].
  intros n Hn. rewrite Hdom. apply elem_of_list_to_set.
  by apply (sublist_subseteq _ _ (requiredNames_sublist fields)).
Qed.

Lemma struct_schema_keys_witness :
  synthesizable (StructT "User" (fieldsOf User)) = true ∧
  ∃ s,
    ToSchema (ZeroValue (StructT "User" (fieldsOf User))) = Ok (Some s) ∧
    dom (Properties s)
    = list_to_set (map (λ f, fieldName f.1) (fieldsOf User)) ∧
    Required s `sublist_of` map (λ f, fieldName f.1) (fieldsOf User) ∧
    (∀ n, n ∈ Required s → n ∈ dom (Properties s)) ∧
    Items s = None.
Proof.
  split; [reflexivity|].
  apply (struct_schema_keys "User" (fieldsOf User)). reflexivity.
Defined.



End ToSchema_returns.

(** ** Tags: what RemoveTags leaves, and AddTags followed by RemoveTags *)

Section Tags_composed.

Import Support.













End Tags_composed.

(** ** Options: the listener, the address, the documented responses and
    the OpenAPI configuration *)

Section Options_composed.

Import Support.

Lemma WithListener_run l s :
  listener s = None →
  WithListener l s
  = mret (set_listener (Some l)
            (set_Addr (ListenerAddr l) (set_isTLS (ListenerIsTLS l) s))).
Proof.
  intros Hl. unfold WithListener, WithAddr. rewrite Hl.
  assert (listener (set_isTLS (ListenerIsTLS l) s) = None) as ->
    by (by destruct s).
  by rewrite Eff_bind_ret_l.
Qed.

Lemma NewServer_run `{Security} options :
  NewServer options
  = (s ← applyOptions options afterDefaults; finishNewServer s).
Proof.
  unfold NewServer.
  by rewrite applyOptions_app, defaultOptions_run, Eff_bind_ret_l.
Qed.

Lemma Eff_bind_Ok {A B} (m : Eff A) (k : A → Eff B) a lg :
  m = mkEff (Ok a) lg →
  (m ≫= k) = mkEff (outcome (k a)) (lg ++ logs (k a)).
Proof. by intros ->. Qed.

Lemma outcome_bind {A B} (m : Eff A) (k : A → Eff B) a :
  outcome m = Ok a → outcome (m ≫= k) = outcome (k a).
Proof. unfold mbind, Eff_bind. by intros ->. Qed.

Lemma WithGlobalResponseTypes_run calls : ∀ s,
  applyOptions (map globalResponseOption calls) s
  = mret (set_globalOpenAPIResponses
            (globalOpenAPIResponses s ++ map responseOf calls) s).
Proof.
  induction calls as [|[[code description] errorType] calls IH]; intros s.
  - cbn. rewrite app_nil_r. by destruct s.
  - cbn [map applyOptions].
    change (globalResponseOption (code, description, errorType) s)
      with (mret (M:=Eff)
              (set_globalOpenAPIResponses
                 (globalOpenAPIResponses s ++
                    [mkOpenAPIError code description
                       (default HTTPError
                          (head (errorType ++ [HTTPError])))])
                 s)).
    rewrite Eff_bind_ret_l, IH. f_equal. destruct s; cbn.
    rewrite <- app_assoc. by destruct errorType.
Qed.

Lemma WithOpenAPIConfig_outcome `{PathSyntax} arg s :
  outcome (WithOpenAPIConfig arg s)
  = Ok (set_OpenAPIConfig (mergeConfig arg (OpenAPIConfig_ s)) s).
Proof.
  unfold WithOpenAPIConfig, mergeConfig. rewrite !negb_eqb_decide.
  assert (∀ cfg, OpenAPIConfig_ (set_OpenAPIConfig cfg s) = cfg) as Hget
    by (by destruct s).
  rewrite !Hget. cbn [JsonUrl SwaggerUrl].
  destruct (validateJsonSpecUrl _), (validateSwaggerUrl _); cbn;
    by destruct (UIHandler arg).
Qed.

Lemma set_OpenAPIConfig_twice c1 c2 s :
  set_OpenAPIConfig c2 (set_OpenAPIConfig c1 s) = set_OpenAPIConfig c2 s.
Proof. by destruct s. Qed.

Lemma OpenAPIConfig_set c s : OpenAPIConfig_ (set_OpenAPIConfig c s) = c.
Proof. by destruct s. Qed.

Lemma set_OpenAPIConfig_same s : set_OpenAPIConfig (OpenAPIConfig_ s) s = s.
Proof. by destruct s. Qed.

Lemma WithOpenAPIConfig_fold `{PathSyntax} cs : ∀ s,
  outcome (applyOptions (map WithOpenAPIConfig cs) s)
  = Ok (set_OpenAPIConfig
          (foldl (λ cur c, mergeConfig c cur) (OpenAPIConfig_ s) cs) s).
Proof.
  induction cs as [|c cs IH]; intros s; cbn [map applyOptions foldl].
  - by rewrite set_OpenAPIConfig_same.
  - rewrite (outcome_bind _ _ _ (WithOpenAPIConfig_outcome c s)), IH.
    by rewrite OpenAPIConfig_set, set_OpenAPIConfig_twice.
Qed.

Lemma lastNonEmptyOr_snoc d l x :
  lastNonEmptyOr d (l ++ [x])
  = if decide (x = "") then lastNonEmptyOr d l else x.
Proof.
  unfold lastNonEmptyOr. rewrite filter_app, filter_cons, filter_nil.
  case_decide as Hx; case_decide; try done.
  - by rewrite last_snoc.
  - by rewrite app_nil_r.
Qed.

Lemma lastGivenOr_snoc {A} (d : option A) l x :
  lastGivenOr d (l ++ [x])
  = if decide (x = None) then lastGivenOr d l else x.
Proof.
  unfold lastGivenOr. rewrite filter_app, filter_cons, filter_nil.
  case_decide as Hx; case_decide; try done.
  - by rewrite last_snoc.
  - by rewrite app_nil_r.
Qed.

Lemma lastNonEmptyOr_non_empty d l : d ≠ "" → lastNonEmptyOr d l ≠ "".
Proof.
  intros Hd. induction l as [|x l IH] using rev_ind; [done|].
  rewrite lastNonEmptyOr_snoc. by case_decide.
Qed.

Lemma lastGivenOr_given {A} (d : option A) l :
  d ≠ None → lastGivenOr d l ≠ None.
Proof.
  intros Hd. induction l as [|x l IH] using rev_ind; [done|].
  rewrite lastGivenOr_snoc. by case_decide.
Qed.

Lemma mergeConfig_fold cs : ∀ cur,
  let cfg := foldl (λ cur c, mergeConfig c cur) cur cs in
  SwaggerUrl cfg = lastNonEmptyOr (SwaggerUrl cur) (map SwaggerUrl cs) ∧
  JsonUrl cfg = lastNonEmptyOr (JsonUrl cur) (map JsonUrl cs) ∧
  JsonFilePath cfg
  = lastNonEmptyOr (JsonFilePath cur) (map JsonFilePath cs) ∧
  UIHandler cfg = lastGivenOr (UIHandler cur) (map UIHandler cs).
Proof.
  induction cs as [|c cs IH] using rev_ind; intros cur; [done|].
  cbn zeta. rewrite foldl_app, !map_app. cbn [foldl map].
  rewrite !lastNonEmptyOr_snoc, lastGivenOr_snoc.
  destruct (IH cur) as (<- & <- & <- & <-). by unfold mergeConfig.
Qed.

(** X7: on a server that has no listener, [WithListener] returns, and
    sets the address and the TLS flag from the listener. From then on the
    listener cannot be replaced and [WithAddr] cannot change the address:
    both panic. The deprecated [WithPort] has no such guard: it still
    returns and overwrites the address, the listener staying in place. *)
Theorem WithListener_fixes_the_address (l : Listener) (s : Server) :
  listener s = None →
  ∃ s',
    WithListener l s = mret s' ∧
    Addr s' = ListenerAddr l ∧ isTLS s' = ListenerIsTLS l ∧
    listener s' = Some l ∧
    (∀ addr,
       WithAddr addr s'
       = panic "cannot set addr when a listener is already configured") ∧
    (∀ l',
       WithListener l' s'
       = panic "a listener is already configured; cannot overwrite it") ∧
    (∀ port, ∃ s'',
       FuegoPort.WithPort port s' = mret s'' ∧
       Addr s'' = String.append "localhost:" (pretty port) ∧
       listener s'' = Some l).
Proof.
  intros Hl. eexists. split; [by apply WithListener_run|].
  destruct s; cbn in *. repeat split. intros port. eexists. by repeat split.
Qed.

Lemma WithListener_fixes_the_address_witness :
  ∃ s',
    WithListener (plainListener "127.0.0.1:8080") initialServer = mret s' ∧
    Addr s' = "127.0.0.1:8080" ∧ isTLS s' = false ∧
    listener s' = Some (plainListener "127.0.0.1:8080") ∧
    (∀ addr,
       WithAddr addr s'
       = panic "cannot set addr when a listener is already configured") ∧
    (∀ l',
       WithListener l' s'
       = panic "a listener is already configured; cannot overwrite it") ∧
    (∀ port, ∃ s'',
       FuegoPort.WithPort port s' = mret s'' ∧
       Addr s'' = String.append "localhost:" (pretty port) ∧
       listener s'' = Some (plainListener "127.0.0.1:8080")).
Proof.
  apply (WithListener_fixes_the_address
           (plainListener "127.0.0.1:8080") initialServer).
  reflexivity.
Defined.

(** X8: the address [NewServer] ends with, when the options return and do
    not enable auto-auth. An address set by the options is kept; when they
    leave it empty and set no listener it is "localhost:9999"; in both
    cases one entry for that address is appended to the servers of the
    document and nothing is logged by this step. When the address is empty
    and a listener is set, [NewServer] panics in [WithAddr]. *)
Theorem NewServer_address `{Security} options s lg :
  applyOptions options afterDefaults = mkEff (Ok s) lg →
  autoAuthEnabled s = false →
  ((Addr s ≠ "") ∨ listener s = None →
   ∃ s', NewServer options = mkEff (Ok s') lg ∧
         Addr s' = (if decide (Addr s = "") then "localhost:9999"
                    else Addr s) ∧
         Servers (OpenApiSpec s')
         = Servers (OpenApiSpec s) ++
             [mkSpecServer
                (String.append (proto s') (String.append "://" (Addr s')))
                "local server"] ∧
         listener s' = listener s) ∧
  (Addr s = "" → listener s ≠ None →
   NewServer options
   = mkEff (Panic "cannot set addr when a listener is already configured")
       lg).
Proof.
  intros Hrun Hauth. rewrite NewServer_run, (Eff_bind_Ok _ _ _ _ Hrun).
  unfold finishNewServer, WithAddr. rewrite eqb_decide.
  destruct s as [addr ? ? ? ? ? ? lst auth ? ? ? ? ? ? ?]. cbn in Hauth |- *.
  subst auth. split.
  - intros Hor. case_decide as Haddr.
    + destruct Hor as [?| ->]; [done|]. subst addr. cbn. rewrite app_nil_r.
      eexists. by repeat split.
    + cbn. rewrite app_nil_r. eexists. by repeat split.
  - intros -> Hlst. destruct lst; [|done]. cbn. by rewrite app_nil_r.
Qed.

Lemma NewServer_address_witness :
  let _ := testSecurity in
  let s := set_Addr ":8080" afterDefaults in
  ((Addr s ≠ "") ∨ listener s = None →
   ∃ s', NewServer [WithAddr ":8080"] = mkEff (Ok s') [] ∧
         Addr s' = (if decide (Addr s = "") then "localhost:9999"
                    else Addr s) ∧
         Servers (OpenApiSpec s')
         = Servers (OpenApiSpec s) ++
             [mkSpecServer
                (String.append (proto s') (String.append "://" (Addr s')))
                "local server"] ∧
         listener s' = listener s) ∧
  (Addr s = "" → listener s ≠ None →
   NewServer [WithAddr ":8080"]
   = mkEff (Panic "cannot set addr when a listener is already configured")
       []).
Proof.
  apply (@NewServer_address testSecurity [WithAddr ":8080"]
           (set_Addr ":8080" afterDefaults) []); reflexivity.
Defined.

(** X9: [WithGlobalResponseTypes] only ever appends: a run of such options
    leaves the responses there were, followed by one response for each
    call, in order, with the first error type of the call, or [HTTPError]
    when the call gives none; error types after the first are ignored.
    So [NewServer] with such options documents the two default responses,
    400 and 500, first, and the option cannot remove them. *)
Theorem WithGlobalResponseTypes_appends `{Security}
    (calls : list (Z * string * list ErrorType)) (s : Server) :
  applyOptions (map globalResponseOption calls) s
  = mret (set_globalOpenAPIResponses
            (globalOpenAPIResponses s ++ map responseOf calls) s) ∧
  ∃ s',
    NewServer (map globalResponseOption calls) = mret s' ∧
    globalOpenAPIResponses s'
    = [ mkOpenAPIError 400
          "Bad Request _(validation or deserialization error)_" HTTPError;
        mkOpenAPIError 500 "Internal Server Error _(panics)_" HTTPError ]
      ++ map responseOf calls.
Proof.
  split; [apply WithGlobalResponseTypes_run|].
  rewrite NewServer_run, WithGlobalResponseTypes_run, Eff_bind_ret_l.
  eexists. split; reflexivity.
Qed.

(** X10: how calls of [WithOpenAPIConfig] (server.go) compose. After any
    run of them the options have returned and only the configuration of
    the server has changed. The four flags are those of the last call
    alone, so a call that sets a URL only switches back on what an earlier
    call disabled. Each of the two URLs and the local file path is the
    last value given that is not empty, and the UI handler the last one
    that is not nil; where no call gives one, the server keeps its own. *)
Theorem WithOpenAPIConfig_sequence `{PathSyntax}
    (cs : list OpenAPIConfig) (c : OpenAPIConfig) (s : Server) :
  ∃ cfg,
    outcome (applyOptions (map WithOpenAPIConfig (cs ++ [c])) s)
    = Ok (set_OpenAPIConfig cfg s) ∧
    DisableSwagger cfg = DisableSwagger c ∧
    DisableSwaggerUI cfg = DisableSwaggerUI c ∧
    DisableLocalSave cfg = DisableLocalSave c ∧
    PrettyFormatJson cfg = PrettyFormatJson c ∧
    SwaggerUrl cfg
    = lastNonEmptyOr (SwaggerUrl (OpenAPIConfig_ s))
        (map SwaggerUrl (cs ++ [c])) ∧
    JsonUrl cfg
    = lastNonEmptyOr (JsonUrl (OpenAPIConfig_ s)) (map JsonUrl (cs ++ [c])) ∧
    JsonFilePath cfg
    = lastNonEmptyOr (JsonFilePath (OpenAPIConfig_ s))
        (map JsonFilePath (cs ++ [c])) ∧
    UIHandler cfg
    = lastGivenOr (UIHandler (OpenAPIConfig_ s)) (map UIHandler (cs ++ [c])).
Proof.
  eexists. split; [apply WithOpenAPIConfig_fold|].
  destruct (mergeConfig_fold (cs ++ [c]) (OpenAPIConfig_ s))
    as (-> & -> & -> & ->).
  rewrite foldl_app. by cbn.
Qed.

(** X11: whatever configurations are passed to [NewServer] through
    [WithOpenAPIConfig], and whatever the path-syntax checks answer,
    [NewServer] returns a server whose Swagger URL, spec-JSON URL and local
    file path are not empty and whose UI handler is not nil: the option
    cannot blank what the defaults set. *)
Theorem WithOpenAPIConfig_never_blanks `{PathSyntax} `{Security}
    (cs : list OpenAPIConfig) :
  ∃ s,
    outcome (NewServer (map WithOpenAPIConfig cs)) = Ok s ∧
    SwaggerUrl (OpenAPIConfig_ s) ≠ "" ∧
    JsonUrl (OpenAPIConfig_ s) ≠ "" ∧
    JsonFilePath (OpenAPIConfig_ s) ≠ "" ∧
    UIHandler (OpenAPIConfig_ s) ≠ None.
Proof.
  rewrite NewServer_run.
  rewrite (outcome_bind _ _ _ (WithOpenAPIConfig_fold cs afterDefaults)).
  eexists. split; [reflexivity|]. cbn.
  destruct (mergeConfig_fold cs defaultOpenAPIConfig) as (-> & -> & -> & ->).
  repeat split;
    (apply lastNonEmptyOr_non_empty || apply lastGivenOr_given); done.
Qed.

End Options_composed.

(** ** Parameters of a route and of a server *)

Section Params_registered.

Import Support.

Lemma Route_Param_fold params : ∀ name description paramType required,
  fold_left
    (λ (p : OpParameter) (param : OpenAPIParam),
       if Required_ param
       then mkParameter (ParamName p) (ParamDescription p) (In p)
              (Required_ param)
       else p)
    params (mkParameter name description paramType required)
  = mkParameter name description paramType
      (required || existsb Required_ params).
Proof.
  induction params as [|p params IH];
    intros name description paramType required; cbn [fold_left existsb].
  - by rewrite orb_false_r.
  - destruct (Required_ p) eqn:E; cbn [ParamName ParamDescription In].
    + rewrite IH. by rewrite orb_true_r.
    + by rewrite IH.
Qed.

(** X12: [Route.Param] appends one parameter to those of the operation and
    changes nothing else of it: the parameter has the given name,
    description and place, and is required exactly when one of the options
    is; the example and the type of the options are not read. Parameters
    are appended, never replaced, also under a name already there.
    [Header], [Cookie] and [QueryParam] do the same with the place
    "header", "cookie" and "query". *)
Theorem Route_Param_appends
    (rt : Route) (paramType name description : string)
    (params : list OpenAPIParam) :
  let added p := mkParameter name description p (existsb Required_ params) in
  let o := operation rt in
  operation (Route_Param rt paramType name description params)
  = {| Summary := Summary o; Description := Description o;
       OperationID := OperationID o; Tags := Tags o;
       Parameters := Parameters o ++ [added paramType];
       Deprecated := Deprecated o |} ∧
  Parameters (operation (Route_Header rt name description params))
  = Parameters o ++ [added "header"] ∧
  Parameters (operation (Route_Cookie rt name description params))
  = Parameters o ++ [added "cookie"] ∧
  Parameters (operation (Route_QueryParam rt name description params))
  = Parameters o ++ [added "query"].
Proof.
  cbn zeta. unfold Route_Header, Route_Cookie, Route_QueryParam, Route_Param.
  cbn [operation Parameters]. by rewrite !Route_Param_fold.
Qed.

Import FuegoParams.

Lemma applyParamOption_fold opts : ∀ name description required example type,
  fold_left applyParamOption opts
    (mkParam name description required example type)
  = mkParam name description (required || existsb OptRequired opts)
      (lastNonEmptyOr example (map OptExample opts))
      (lastNonEmptyOr type (map OptType opts)).
Proof.
  induction opts as [|p opts IH] using rev_ind;
    intros name description required example type.
  - cbn. by rewrite orb_false_r.
  - rewrite fold_left_app, IH, existsb_app, !map_app.
    cbn [fold_left map existsb].
    rewrite !lastNonEmptyOr_snoc, orb_false_r.
    unfold applyParamOption. rewrite !negb_eqb_decide.
    cbn [FuegoParams.Name FuegoParams.Description FuegoParams.Required
         FuegoParams.Example_ FuegoParams.Type_].
    destruct (OptRequired p); repeat case_decide; try done;
      by rewrite ?orb_true_r, ?orb_false_r.
Qed.

Lemma Param_run
    (s : FuegoParams.Server) (name description : string)
    (opts : list OpenAPIParamOption) :
  paramsOf (Param s name description opts)
  = <[name :=
        mkParam name description (existsb OptRequired opts)
          (lastNonEmptyOr "" (map OptExample opts))
          (lastNonEmptyOr "" (map OptType opts))]> (paramsOf s).
Proof.
  unfold Param, paramsOf. cbn [params default from_option id].
  rewrite applyParamOption_fold. cbn [orb]. by destruct (params s).
Qed.

(** X13: [Server.Param] stores, under the name, a parameter with the name
    and the description, required exactly when one of the options is, with
    the last example and the last type the options give that are not
    empty (the empty string when none does). It works on a server whose
    map is nil, leaves the parameters of other names as they are, and
    replaces a parameter registered before under the same name: nothing of
    the earlier one is kept. *)
Theorem Server_Param_registers
    (s : FuegoParams.Server) (name description : string)
    (opts : list OpenAPIParamOption) (other : string) :
  let registered :=
    mkParam name description (existsb OptRequired opts)
      (lastNonEmptyOr "" (map OptExample opts))
      (lastNonEmptyOr "" (map OptType opts)) in
  paramsOf (Param s name description opts)
  = <[name := registered]> (paramsOf s) ∧
  paramsOf (Param s name description opts) !! name = Some registered ∧
  (other ≠ name →
   paramsOf (Param s name description opts) !! other
   = paramsOf s !! other) ∧
  ∀ description' opts',
    Param (Param s name description' opts') name description opts
    = Param s name description opts.
Proof.
  cbn zeta. rewrite Param_run. split; [done|]. split; [|split].
  - by rewrite lookup_insert_eq.
  - intros Hne. by rewrite lookup_insert_ne.
  - intros description' opts'. unfold Param. cbn [params].
    by rewrite insert_insert_eq.
Qed.

(** X14: [Server.Header], [Server.Cookie] and [Server.Query] register the
    parameter as [Server.Param] does, with the type of their kind,
    whatever type the options give: their own option comes last. This
    needs the three type constants not to be empty. *)
Theorem Server_Header_Cookie_Query_fix_the_type `{ParamTypes}
    (s : FuegoParams.Server) (name description : string)
    (opts : list OpenAPIParamOption) :
  HeaderParamType ≠ "" → CookieParamType ≠ "" → QueryParamType ≠ "" →
  let registered ty :=
    mkParam name description (existsb OptRequired opts)
      (lastNonEmptyOr "" (map OptExample opts)) ty in
  paramsOf (Header s name description opts)
  = <[name := registered HeaderParamType]> (paramsOf s) ∧
  paramsOf (Cookie s name description opts)
  = <[name := registered CookieParamType]> (paramsOf s) ∧
  paramsOf (Query s name description opts)
  = <[name := registered QueryParamType]> (paramsOf s).
Proof.
  intros Hh Hc Hq. cbn zeta. unfold Header, Cookie, Query.
  rewrite !Param_run, !existsb_app, !map_app.
  cbn [existsb map OptRequired OptExample OptType].
  rewrite !lastNonEmptyOr_snoc, !orb_false_r.
  rewrite !decide_True by done. by rewrite !decide_False by done.
Qed.

Lemma Server_Header_Cookie_Query_fix_the_type_witness :
  let _ := routeParamTypes in
  let s := mkServer None in
  let opts := [mkParamOption true "abc" "query"] in
  let registered ty := mkParam "X-Trace" "trace id" true "abc" ty in
  paramsOf (Header s "X-Trace" "trace id" opts)
  = <[ "X-Trace" := registered "header"]> (paramsOf s) ∧
  paramsOf (Cookie s "X-Trace" "trace id" opts)
  = <[ "X-Trace" := registered "cookie"]> (paramsOf s) ∧
  paramsOf (Query s "X-Trace" "trace id" opts)
  = <[ "X-Trace" := registered "query"]> (paramsOf s).
Proof.
  apply (@Server_Header_Cookie_Query_fix_the_type routeParamTypes
           (mkServer None) "X-Trace" "trace id"
           [mkParamOption true "abc" "query"]); done.
Defined.

End Params_registered.
